(** * Knowledge-card designer: retry executor, card renderer, workflow
      controller and export pipeline

    A shallow embedding of [services/geminiService.ts] (the retry executor
    [withRetry], [analyzeDocument], [generateCardHTML]) and of the [App]
    component (the workflow handlers, the export filter and the download
    name), followed by the properties the design document states about them.

    Conventions of the embedding.
    - A JavaScript string is a [string]: the bytes of its UTF-8 encoding.
      All the characters the code inspects (the back-tick fence, the
      characters of the file-name class, the needles ['429'] and ['quota'])
      are ASCII, and an ASCII byte never occurs inside a multi-byte
      sequence, so searching and replacing on bytes agree with the
      code-unit operations of the engine.
    - A JavaScript number that the code compares or multiplies (retry count,
      delay, card index, status code) is an integer in [Z].
    - A promise is run to completion: an asynchronous function is a function
      of the state of the outside world returning either the rejection value
      or the result, the new world and the effects it performed in order. *)

From Stdlib Require Import ZArith List String Ascii Bool Lia Arith.
From Stdlib Require Import Numbers.DecimalString.
From Equations Require Import Equations.
Import ListNotations.

Set Warnings "-register-all".

Local Open Scope string_scope.
Local Open Scope list_scope.

(* ===================================================================== *)
(** * JavaScript strings                                                   *)
(* ===================================================================== *)

Module JsString.

(** The double quote and the backslash, written by code so that no
    string literal needs an escape. *)
Definition dquote : ascii := ascii_of_nat 34.
Definition backslash : ascii := ascii_of_nat 92.

Definition str1 (c : ascii) : string := String c "".

(** [s.startsWith(p)] *)
Fixpoint startsWith (p s : string) : bool :=
  match p, s with
  | "", _ => true
  | String a p', String b s' => Ascii.eqb a b && startsWith p' s'
  | String _ _, "" => false
  end.

(** [s.indexOf(needle)], [None] standing for [-1]. *)
Fixpoint indexOf (needle s : string) : option nat :=
  if startsWith needle s then Some 0
  else match s with
       | "" => None
       | String _ s' => option_map S (indexOf needle s')
       end.

(** [s.includes(needle)] *)
Definition includes (s needle : string) : bool :=
  match indexOf needle s with Some _ => true | None => false end.

(** [s.substring(0, n)] and [s.substring(n)] *)
Fixpoint take (n : nat) (s : string) : string :=
  match n, s with
  | S n', String c s' => String c (take n' s')
  | _, _ => ""
  end.

Fixpoint drop (n : nat) (s : string) : string :=
  match n, s with
  | S n', String _ s' => drop n' s'
  | _, _ => s
  end.

Fixpoint rev (s : string) : string :=
  match s with
  | "" => ""
  | String c s' => rev s' ++ str1 c
  end.

Fixpoint map (f : ascii -> ascii) (s : string) : string :=
  match s with
  | "" => ""
  | String c s' => String (f c) (map f s')
  end.

Fixpoint join (sep : string) (l : list string) : string :=
  match l with
  | [] => ""
  | [x] => x
  | x :: rest => x ++ sep ++ join sep rest
  end.

(** [s.toLowerCase()] on the ASCII letters.  The engine also maps the
    capital letters outside ASCII; none of their lower-case forms
    contains a character of ['429'] or ['quota'], which are the only
    strings searched for in a lower-cased text. *)
Definition lower_char (c : ascii) : ascii :=
  let n := nat_of_ascii c in
  if (65 <=? n)%nat && (n <=? 90)%nat then ascii_of_nat (n + 32) else c.

Definition toLowerCase (s : string) : string := map lower_char s.

(** ** [split]

    [s.split(sep)] for a non-empty separator cuts [s] at every
    occurrence of [sep], scanning from the left and resuming after each
    occurrence; for the empty separator it yields the characters. *)
Definition inspect {A : Type} (a : A) : {b : A | a = b} :=
  exist _ a eq_refl.

Equations? split (sep s : string) : list string by wf (length s) lt :=
  split "" s := List.map str1 (list_ascii_of_string s);
  split (String a sep') s with inspect (indexOf (String a sep') s) := {
    | exist _ None _ => [s]
    | exist _ (Some i) e =>
        take i s :: split (String a sep') (drop (i + S (length sep')) s) }.
Proof.
  assert (Hdrop : forall n t, length (drop n t) = (length t - n)%nat).
  { induction n as [|n IH]; intros [|c t]; simpl; auto. }
  assert (Hpre : forall p t, startsWith p t = true ->
                             (length p <= length t)%nat).
  { induction p as [|x p IHp]; intros [|y t]; simpl; try lia;
      try discriminate.
    intros Hp. apply andb_true_iff in Hp as [_ Hp].
    apply IHp in Hp. lia. }
  assert (Hidx : forall t j, indexOf (String a sep') t = Some j ->
                             (j + S (length sep') <= length t)%nat).
  { induction t as [|c t IH]; intros j; [simpl; discriminate|].
    cbn [indexOf]. destruct (startsWith (String a sep') (String c t)) eqn:E.
    - intros [= <-]. apply Hpre in E. simpl in *. lia.
    - destruct (indexOf (String a sep') t) as [k|]; simpl; [|discriminate].
      intros [= <-]. specialize (IH k eq_refl). simpl. lia. }
  apply Hidx in e. rewrite Hdrop. lia.
Qed.

(** ** [trim]

    [s.trim()] removes the white space and line terminators of
    ECMAScript from both ends: TAB, LF, VT, FF, CR, SP, NBSP, the
    Unicode space separators, LS, PS and the byte-order mark.  Each is
    listed by its UTF-8 encoding. *)
Definition bytes (l : list nat) : string :=
  string_of_list_ascii (List.map ascii_of_nat l).

Definition whiteSpace : list string :=
  List.map bytes
    ([ [9]; [10]; [11]; [12]; [13]; [32];
       [194; 160];                                  (* U+00A0 *)
       [225; 154; 128] ]                            (* U+1680 *)
     ++ List.map (fun k => [226; 128; 128 + k]) (seq 0 11) (* U+2000-200A *)
     ++ [ [226; 128; 168]; [226; 128; 169];         (* U+2028, U+2029 *)
          [226; 128; 175]; [226; 129; 159];         (* U+202F, U+205F *)
          [227; 128; 128];                          (* U+3000 *)
          [239; 187; 191] ]).                       (* U+FEFF *)

(** The rest of [s] after one leading element of [ws], if there is one. *)
Fixpoint stripOne (ws : list string) (s : string) : option string :=
  match ws with
  | [] => None
  | w :: ws' =>
      if startsWith w s then Some (drop (length w) s) else stripOne ws' s
  end.

Fixpoint stripAll (fuel : nat) (ws : list string) (s : string) : string :=
  match fuel with
  | O => s
  | S fuel' =>
      match stripOne ws s with
      | Some rest => stripAll fuel' ws rest
      | None => s
      end
  end.

Definition trimStart (s : string) : string :=
  stripAll (length s) whiteSpace s.

Definition trimEnd (s : string) : string :=
  rev (stripAll (length s) (List.map rev whiteSpace) (rev s)).

Definition trim (s : string) : string := trimEnd (trimStart s).

End JsString.

Import JsString.

(* ===================================================================== *)
(** * JavaScript values and [JSON.stringify]                               *)
(* ===================================================================== *)

(** The values a promise can reject with.  An object carries its own
    enumerable properties in insertion order ([props], the ones
    [JSON.stringify] writes) and the properties that can be read but are
    not serialised ([hidden]: inherited or non-enumerable ones, such as
    [name], [message] and [stack] of an [Error]).  A function is a value
    whose properties can be read ([fields], its [name] among them) and
    which has no JSON form: [JSON.stringify] gives [undefined] for it.
    No value has a [toJSON] method; symbols, and the values at which
    [JSON.stringify] itself throws a [TypeError] (an object through which
    a reference cycle runs, or one that holds a BigInt), are outside the
    type. *)
Inductive JsValue : Type :=
| JUndefined
| JNull
| JBool (b : bool)
| JNum (n : Z)
| JStr (s : string)
| JArr (items : list JsValue)
| JObj (props : list (string * JsValue)) (hidden : list (string * JsValue))
| JFun (fields : list (string * JsValue)).

Module Json.

Definition hexDigit (n : nat) : ascii :=
  nth n (list_ascii_of_string "0123456789abcdef") "0"%char.

(** One character inside a JSON string literal (QuoteJSONString). *)
Definition escapeChar (c : ascii) : string :=
  let n := nat_of_ascii c in
  if (n =? 34)%nat then String backslash (str1 dquote)
  else if (n =? 92)%nat then String backslash (str1 backslash)
  else if (n =? 8)%nat then "\b"
  else if (n =? 9)%nat then "\t"
  else if (n =? 10)%nat then "\n"
  else if (n =? 12)%nat then "\f"
  else if (n =? 13)%nat then "\r"
  else if (n <? 32)%nat then
    "\u00" ++ str1 (hexDigit (n / 16)) ++ str1 (hexDigit (n mod 16))
  else str1 c.

Fixpoint escape (s : string) : string :=
  match s with
  | "" => ""
  | String c s' => escapeChar c ++ escape s'
  end.

Definition quote (s : string) : string :=
  str1 dquote ++ escape s ++ str1 dquote.

Fixpoint dropZeros (s : string) : string :=
  match s with
  | String "0" s' => dropZeros s'
  | _ => s
  end.

(** [Number::toString] of an integral number: the decimal digits below
    [1e21], and from there on the exponent notation, the significant
    digits with a point after the first one, [e+] and the decimal
    exponent.  The digits are those of the integer itself; for a number
    above [2^53] the engine writes the shortest digits that read back as
    the same double. *)
Definition numberToString (n : Z) : string :=
  let sign := if (n <? 0)%Z then "-" else "" in
  let digits := NilZero.string_of_int (Z.to_int (Z.abs n)) in
  if (Z.abs n <? 10 ^ 21)%Z then sign ++ digits
  else
    let exponent :=
      NilZero.string_of_int
        (Z.to_int (Z.of_nat (String.length digits - 1))) in
    match rev (dropZeros (rev digits)) with
    | "" => sign ++ digits
    | String d "" => sign ++ str1 d ++ "e+" ++ exponent
    | String d rest => sign ++ str1 d ++ "." ++ rest ++ "e+" ++ exponent
    end.

(** [JSON.stringify(v)]; [None] is the result [undefined], which
    [undefined] itself and a function give.  A property whose value
    serialises to [undefined] is left out of an object and written [null]
    in an array. *)
Fixpoint stringify (v : JsValue) : option string :=
  match v with
  | JUndefined => None
  | JNull => Some "null"
  | JBool true => Some "true"
  | JBool false => Some "false"
  | JNum n => Some (numberToString n)
  | JStr s => Some (quote s)
  | JArr items =>
      Some ("[" ++ join ","
              (List.map (fun x => match stringify x with
                                  | Some t => t
                                  | None => "null"
                                  end) items) ++ "]")%string
  | JObj props _ =>
      Some ("{" ++ join ","
              (List.flat_map
                 (fun kv => match stringify (snd kv) with
                            | Some t => [(quote (fst kv) ++ ":" ++ t)%string]
                            | None => []
                            end) props) ++ "}")%string
  | JFun _ => None
  end.

Fixpoint assoc (k : string) (l : list (string * JsValue)) : option JsValue :=
  match l with
  | [] => None
  | (k', x) :: l' => if String.eqb k k' then Some x else assoc k l'
  end.

(** [v?.k] for a property name [k] that no primitive wrapper or array
    defines ([status], [code], [name], [message]). *)
Definition getOpt (v : JsValue) (k : string) : JsValue :=
  match v with
  | JObj props hidden =>
      match assoc k props with
      | Some x => x
      | None => match assoc k hidden with
                | Some x => x
                | None => JUndefined
                end
      end
  | JFun fields =>
      match assoc k fields with
      | Some x => x
      | None => JUndefined
      end
  | _ => JUndefined
  end.

(** [v === n] for a number literal [n]. *)
Definition strictEqNum (v : JsValue) (n : Z) : bool :=
  match v with
  | JNum m => Z.eqb m n
  | _ => false
  end.

(** An instance of a built-in error class: nothing of it is enumerable. *)
Definition nativeError (name message : string) : JsValue :=
  JObj [] [("name", JStr name); ("message", JStr message)].

Definition TypeError (message : string) : JsValue :=
  nativeError "TypeError" message.

Definition SyntaxError (message : string) : JsValue :=
  nativeError "SyntaxError" message.

End Json.

Import Json.

(** The outcome of awaiting a promise. *)
Inductive Result (A : Type) : Type :=
| Resolved (a : A)
| Rejected (e : JsValue).
Arguments Resolved {A} a.
Arguments Rejected {A} e.

(* ===================================================================== *)
(** * The retry executor                                                   *)
(* ===================================================================== *)

(** What the executor does, in order: it calls the operation, the
    operation performs its own effects, and between two calls a timer
    runs. *)
Inductive RetryEvent (F : Type) : Type :=
| Attempt
| Wait (ms : Z)
| Inner (f : F).
Arguments Attempt {F}.
Arguments Wait {F} ms.
Arguments Inner {F} f.

(** The classification in the [catch] block of [withRetry]:
    [None] when [JSON.stringify(error)] is [undefined], so that
    [.toLowerCase()] throws; otherwise the value of [isRateLimit]. *)
Definition isRateLimit (error : JsValue) : option bool :=
  match stringify error with
  | None => None
  | Some str =>
      let errorStr := toLowerCase str in
      Some (includes errorStr "429"
            || includes errorStr "quota"
            || strictEqNum (getOpt error "status") 429
            || strictEqNum (getOpt error "code") 429)
  end.

Definition toLowerCase_of_undefined : JsValue :=
  TypeError "Cannot read properties of undefined (reading 'toLowerCase')".

Section RetryExecutor.

(** [W] is the state of the world outside the executor, [F] the effects
    of the wrapped operation, [T] its result. *)
Context {W F T : Type}.

(** The world after a timer of [ms] milliseconds has fired. *)
Variable setTimeout : Z -> W -> W.

Definition Async : Type := W -> Result T * W * list F.

Definition after (pre : list (RetryEvent F))
    (r : Result T * W * list (RetryEvent F))
  : Result T * W * list (RetryEvent F) :=
  let '(x, w, tr) := r in (x, w, pre ++ tr).

(** [withRetry(fn, retries, delay)].  The warning written to the console
    before the timer is not part of the model. *)
Equations? withRetry (fn : Async) (retries delay : Z) (w : W)
  : Result T * W * list (RetryEvent F) by wf (Z.to_nat retries) lt :=
  withRetry fn retries delay w with fn w := {
    | (Resolved v, w1, tr) => (Resolved v, w1, Attempt :: List.map Inner tr)
    | (Rejected error, w1, tr) with isRateLimit error := {
        | None =>
            (Rejected toLowerCase_of_undefined, w1,
             Attempt :: List.map Inner tr)
        | Some rateLimit
            with inspect ((0 <? retries)%Z && rateLimit) := {
            | exist _ true _ =>
                after (Attempt :: List.map Inner tr ++ [Wait delay])
                  (withRetry fn (retries - 1) (delay * 2)
                     (setTimeout delay w1))
            | exist _ false _ =>
                (Rejected error, w1, Attempt :: List.map Inner tr) } } }.
Proof.
  apply andb_true_iff in e as [e _]. apply Z.ltb_lt in e. lia.
Qed.

End RetryExecutor.

(** ** Vocabulary for statements about a run of the executor *)

(** The classification of a failure as the design document words it: the
    serialised form contains ['429'] or ['quota'] (letter case is not
    regarded, the code lower-cases the text first), or the [status] or
    the [code] field is the number 429. *)
Definition RateLimitClassified (error : JsValue) : Prop :=
  (exists str, stringify error = Some str /\
               (includes (toLowerCase str) "429" = true \/
                includes (toLowerCase str) "quota" = true))
  \/ getOpt error "status" = JNum 429
  \/ getOpt error "code" = JNum 429.

Section RetryRuns.

Context {W F T : Type}.
Variable setTimeout : Z -> W -> W.

(** The world in which attempt number [k] (counted from 0) starts when
    every earlier attempt was followed by the timer and a retry. *)
Fixpoint attemptWorld (fn : @Async W F T) (delay : Z) (w : W) (k : nat)
  : W :=
  match k with
  | O => w
  | S k' =>
      attemptWorld fn (delay * 2) (setTimeout delay (snd (fst (fn w)))) k'
  end.

(** The number of calls of the operation in a trace. *)
Fixpoint attempts (tr : list (RetryEvent F)) : nat :=
  match tr with
  | [] => 0
  | Attempt :: tr' => S (attempts tr')
  | _ :: tr' => attempts tr'
  end.

(** The timers of a trace, in order. *)
Fixpoint waits (tr : list (RetryEvent F)) : list Z :=
  match tr with
  | [] => []
  | Wait ms :: tr' => ms :: waits tr'
  | _ :: tr' => waits tr'
  end.

(** The effects of the wrapped operation in a trace, in order. *)
Fixpoint inner (tr : list (RetryEvent F)) : list F :=
  match tr with
  | [] => []
  | Inner f :: tr' => f :: inner tr'
  | _ :: tr' => inner tr'
  end.

(** The trace without the effects of the wrapped operation. *)
Fixpoint schedule (tr : list (RetryEvent F)) : list (RetryEvent F) :=
  match tr with
  | [] => []
  | Inner _ :: tr' => schedule tr'
  | e :: tr' => e :: schedule tr'
  end.

End RetryRuns.

(** [delay, delay*2, delay*4, ...], [n] terms. *)
Definition backoff (n : nat) (delay : Z) : list Z :=
  List.map (fun k => (delay * 2 ^ Z.of_nat k)%Z) (seq 0 n).

(* ===================================================================== *)
(** * Data model ([types.ts])                                              *)
(* ===================================================================== *)

Record CardOutline : Type := {
  title : string;
  points : list string
}.

Inductive VisualStyle : Type :=
| Academic | Modern | Tech | Handwritten | Business.

Record FontPairing : Type := {
  heading : string;
  body : string
}.

Record DesignBlueprint : Type := {
  style : VisualStyle;
  themeColor : string;
  secondaryColor : string;
  fontPairing : FontPairing;
  cardOutlines : list CardOutline;
  description : string
}.

Inductive WorkflowState : Type :=
| IDLE | ANALYZING | BLUEPRINT_READY | GENERATING_CARD | CARD_READY | ERROR.

(** [GeneratedCard]; its [title] field is [cardTitle] here, the name
    [title] being taken by [CardOutline]. *)
Record GeneratedCard : Type := {
  index : Z;
  html : string;
  cardTitle : string
}.

(** [arr[i]] for a number [i]: [None] is [undefined]. *)
Definition at_index {A : Type} (arr : list A) (i : Z) : option A :=
  if (i <? 0)%Z then None else nth_error arr (Z.to_nat i).

(* ===================================================================== *)
(** * The generation service ([services/geminiService.ts])                 *)
(* ===================================================================== *)

(** A call of [ai.models.generateContent]: the model and the values the
    prompt template interpolates.  The fixed prose of the prompts is left
    out.  [isCover] is computed by both copies of the service and written
    into the prompt by one of them. *)
Inductive GenRequest : Type :=
| AnalysisRequest (model styleInstruction text : string)
| RenderRequest (model : string) (cardTitle cardPoints : string)
    (style : VisualStyle) (themeColor secondaryColor : string)
    (position total : Z) (isCover : bool).

(** [html] after the two [if]s of [generateCardHTML] and the final
    [trim].  [arr[1]] and [arr[0]] may be [undefined], on which [.split]
    and [.trim] would throw: [None]. *)
Definition stripFence (html : string) : option string :=
  if includes html "```html" then
    match nth_error (split "```html" html) 1 with
    | Some rest => nth_error (split "```" rest) 0
    | None => None
    end
  else if includes html "```" then
    match nth_error (split "```" html) 1 with
    | Some rest => nth_error (split "```" rest) 0
    | None => None
    end
  else Some html.

Definition extractHtml (text : string) : option string :=
  option_map trim (stripFence text).

Definition title_of_undefined : JsValue :=
  TypeError "Cannot read properties of undefined (reading 'title')".
Definition includes_of_undefined : JsValue :=
  TypeError "Cannot read properties of undefined (reading 'includes')".
Definition split_of_undefined : JsValue :=
  TypeError "Cannot read properties of undefined (reading 'split')".
Definition json_parse_failure : JsValue :=
  SyntaxError "Unexpected token in JSON".

Section Service.

Context {W : Type}.
Variable setTimeout : Z -> W -> W.

(** The external capability: the response text ([response.text], which
    the client library types [string | undefined]) or a rejection, and
    the world after the call. *)
Variable generateContent : GenRequest -> W -> Result (option string) * W.

(** [JSON.parse(text) as DesignBlueprint]; [None] when [JSON.parse]
    throws.  The cast is unchecked in the source.  The model covers the
    capabilities whose answers have the shape of a blueprint when they
    parse, which is what the response schema of the request asks for; a
    text that parses to anything else ([null], [{}]) is stored by the
    source as it is and has no counterpart here. *)
Variable parseBlueprint : string -> option DesignBlueprint.

Definition analyzeDocument (text preferredStyle : string)
  : W -> Result DesignBlueprint * W * list (RetryEvent GenRequest) :=
  withRetry setTimeout
    (fun w =>
       let styleInstruction :=
         if String.eqb preferredStyle "Auto"
         then "从（Academic, Modern, Tech, Handwritten, Business）中选择最匹配的风格。"
         else ("强制使用指定风格：" ++ preferredStyle ++ "。")%string in
       let request :=
         AnalysisRequest "gemini-3-flash-preview" styleInstruction text in
       match generateContent request w with
       | (Rejected e, w') => (Rejected e, w', [request])
       | (Resolved response, w') =>
           match match response with
                 | Some t => parseBlueprint t
                 | None => None
                 end with
           | Some blueprint => (Resolved blueprint, w', [request])
           | None => (Rejected json_parse_failure, w', [request])
           end
       end)
    3 3000.

Definition generateCardHTML (blueprint : DesignBlueprint) (cardIndex : Z)
  : W -> Result string * W * list (RetryEvent GenRequest) :=
  withRetry setTimeout
    (fun w =>
       let card := at_index (cardOutlines blueprint) cardIndex in
       let total := Z.of_nat (List.length (cardOutlines blueprint)) in
       let isCover := (cardIndex =? 0)%Z in
       match card with
       | None => (Rejected title_of_undefined, w, [])
       | Some card =>
           let request :=
             RenderRequest "gemini-3-pro-preview"
               (title card) (join "；" (points card))
               (style blueprint) (themeColor blueprint)
               (secondaryColor blueprint) (cardIndex + 1) total isCover in
           match generateContent request w with
           | (Rejected e, w') => (Rejected e, w', [request])
           | (Resolved None, w') =>
               (Rejected includes_of_undefined, w', [request])
           | (Resolved (Some text), w') =>
               match extractHtml text with
               | Some html => (Resolved html, w', [request])
               | None => (Rejected split_of_undefined, w', [request])
               end
           end
       end)
    3 3000.

End Service.

(* ===================================================================== *)
(** * The workflow controller ([App])                                      *)
(* ===================================================================== *)

(** The [useState] cells of the component. *)
Record AppState : Type := {
  inputText : string;
  selectedStyle : string;
  workflow : WorkflowState;
  blueprint : option DesignBlueprint;
  currentCard : option GeneratedCard;
  error : option string;
  isDownloading : bool
}.

Definition initialState : AppState :=
  {| inputText := ""; selectedStyle := "Auto"; workflow := IDLE;
     blueprint := None; currentCard := None; error := None;
     isDownloading := false |}.

Definition setInputText (v : string) (st : AppState) : AppState :=
  {| inputText := v; selectedStyle := selectedStyle st;
     workflow := workflow st; blueprint := blueprint st;
     currentCard := currentCard st; error := error st;
     isDownloading := isDownloading st |}.

Definition setSelectedStyle (v : string) (st : AppState) : AppState :=
  {| inputText := inputText st; selectedStyle := v;
     workflow := workflow st; blueprint := blueprint st;
     currentCard := currentCard st; error := error st;
     isDownloading := isDownloading st |}.

Definition setWorkflow (v : WorkflowState) (st : AppState) : AppState :=
  {| inputText := inputText st; selectedStyle := selectedStyle st;
     workflow := v; blueprint := blueprint st;
     currentCard := currentCard st; error := error st;
     isDownloading := isDownloading st |}.

Definition setBlueprint (v : option DesignBlueprint) (st : AppState)
  : AppState :=
  {| inputText := inputText st; selectedStyle := selectedStyle st;
     workflow := workflow st; blueprint := v;
     currentCard := currentCard st; error := error st;
     isDownloading := isDownloading st |}.

Definition setCurrentCard (v : option GeneratedCard) (st : AppState)
  : AppState :=
  {| inputText := inputText st; selectedStyle := selectedStyle st;
     workflow := workflow st; blueprint := blueprint st;
     currentCard := v; error := error st;
     isDownloading := isDownloading st |}.

Definition setError (v : option string) (st : AppState) : AppState :=
  {| inputText := inputText st; selectedStyle := selectedStyle st;
     workflow := workflow st; blueprint := blueprint st;
     currentCard := currentCard st; error := v;
     isDownloading := isDownloading st |}.

Definition setIsDownloading (v : bool) (st : AppState) : AppState :=
  {| inputText := inputText st; selectedStyle := selectedStyle st;
     workflow := workflow st; blueprint := blueprint st;
     currentCard := currentCard st; error := error st;
     isDownloading := v |}.

Definition quotaMessage : string :=
  "API 调用次数超限 (Quota Exceeded)。系统已尝试自动重试，但配额已耗尽。请等待 1 分钟后重试。".
Definition genericMessage : string :=
  "生成过程出错，请检查输入或重试。".

(** [formatErrorMessage(err)]; [None] when [JSON.stringify(err)] is
    [undefined] and [.toLowerCase()] throws. *)
Definition formatErrorMessage (err : JsValue) : option string :=
  match stringify err with
  | None => None
  | Some str =>
      let errStr := toLowerCase str in
      if includes errStr "429" || includes errStr "quota"
      then Some quotaMessage
      else Some genericMessage
  end.

(** A handler run to completion: the state of the component, the world,
    what the retry executor and the service did, and the exception that
    escaped the handler, if any. *)
Record Run (W : Type) : Type := {
  final : AppState;
  world : W;
  events : list (RetryEvent GenRequest);
  uncaught : option JsValue
}.
Arguments final {W} r.
Arguments world {W} r.
Arguments events {W} r.
Arguments uncaught {W} r.

Definition workflow_eqb (a b : WorkflowState) : bool :=
  match a, b with
  | IDLE, IDLE | ANALYZING, ANALYZING | BLUEPRINT_READY, BLUEPRINT_READY
  | GENERATING_CARD, GENERATING_CARD | CARD_READY, CARD_READY
  | ERROR, ERROR => true
  | _, _ => false
  end.

(** ** The controls of the view that are wired to the handlers *)

Inductive Control : Type :=
| AnalyzeButton                 (* onClick={handleAnalyze} *)
| OutlineButton (idx : nat)     (* onClick={() => handleGenerateCard(idx)} *)
| StartButton                   (* onClick={() => handleGenerateCard(0)} *)
| NextButton                    (* onClick={handleNext} *)
| ResetButton.                  (* onClick={handleReset} *)

(** The side bar shows the input form in [IDLE] and [ANALYZING] and the
    blueprint with its outline buttons otherwise. *)
Definition showsForm (st : AppState) : bool :=
  workflow_eqb (workflow st) IDLE || workflow_eqb (workflow st) ANALYZING.

(** The main panel shows the tool bar of the current card (with the next
    button), or else the start button, only outside [IDLE] and
    [GENERATING_CARD]. *)
Definition showsPanel (st : AppState) : bool :=
  negb (workflow_eqb (workflow st) IDLE)
  && negb (workflow_eqb (workflow st) GENERATING_CARD).

(** [(blueprint?.cardOutlines.length || 0) - 1] *)
Definition lastIndex (st : AppState) : Z :=
  match blueprint st with
  | Some b => Z.of_nat (List.length (cardOutlines b)) - 1
  | None => 0 - 1
  end.

(** A control can be clicked when it is rendered and not [disabled]. *)
Definition enabled (st : AppState) (c : Control) : bool :=
  match c with
  | AnalyzeButton =>
      showsForm st
      && negb (workflow_eqb (workflow st) ANALYZING
               || String.eqb (trim (inputText st)) "")
  | OutlineButton idx =>
      negb (showsForm st)
      && match blueprint st with
         | Some b => (idx <? List.length (cardOutlines b))%nat
         | None => false
         end
      && negb (workflow_eqb (workflow st) GENERATING_CARD)
  | StartButton =>
      showsPanel st
      && match currentCard st, blueprint st with
         | None, Some _ => true
         | _, _ => false
         end
  | NextButton =>
      showsPanel st
      && match currentCard st with
         | Some card => negb (index card =? lastIndex st)%Z
         | None => false
         end
  | ResetButton => negb (workflow_eqb (workflow st) IDLE)
  end.

Section Controller.

Context {W : Type}.
Variable setTimeout : Z -> W -> W.
Variable generateContent : GenRequest -> W -> Result (option string) * W.
Variable parseBlueprint : string -> option DesignBlueprint.

(** A handler that returns at once. *)
Definition ignored (st : AppState) (w : W) : Run W :=
  {| final := st; world := w; events := []; uncaught := None |}.

(** The [catch] block shared in shape by both handlers: store the
    message and fall back to [back]. *)
Definition recover (back : WorkflowState) (err : JsValue)
    (st : AppState) (w : W) (tr : list (RetryEvent GenRequest)) : Run W :=
  match formatErrorMessage err with
  | Some msg =>
      {| final := setWorkflow back (setError (Some msg) st);
         world := w; events := tr; uncaught := None |}
  | None =>
      {| final := st; world := w; events := tr;
         uncaught := Some toLowerCase_of_undefined |}
  end.

Definition handleAnalyze (st : AppState) (w : W) : Run W :=
  if String.eqb (trim (inputText st)) "" then ignored st w
  else
    let st1 := setError None (setWorkflow ANALYZING st) in
    match analyzeDocument setTimeout generateContent parseBlueprint
            (inputText st) (selectedStyle st) w with
    | (Resolved result, w', tr) =>
        {| final := setWorkflow BLUEPRINT_READY
                      (setBlueprint (Some result) st1);
           world := w'; events := tr; uncaught := None |}
    | (Rejected err, w', tr) => recover IDLE err st1 w' tr
    end.

Definition handleGenerateCard (st : AppState) (index : Z) (w : W)
  : Run W :=
  match blueprint st with
  | None => ignored st w
  | Some blueprint =>
      let st1 := setError None (setWorkflow GENERATING_CARD st) in
      match generateCardHTML setTimeout generateContent
              blueprint index w with
      | (Resolved html, w', tr) =>
          match at_index (cardOutlines blueprint) index with
          | Some outline =>
              {| final := setWorkflow CARD_READY
                            (setCurrentCard
                               (Some {| index := index; html := html;
                                        cardTitle := title outline |})
                               st1);
                 world := w'; events := tr; uncaught := None |}
          | None => recover BLUEPRINT_READY title_of_undefined st1 w' tr
          end
      | (Rejected err, w', tr) => recover BLUEPRINT_READY err st1 w' tr
      end
  end.

Definition handleNext (st : AppState) (w : W) : Run W :=
  match blueprint st, currentCard st with
  | Some blueprint, Some card =>
      if (index card <? Z.of_nat (List.length (cardOutlines blueprint)) - 1)%Z
      then handleGenerateCard st (index card + 1) w
      else ignored st w
  | _, _ => ignored st w
  end.

Definition handleReset (st : AppState) : AppState :=
  setError None
    (setSelectedStyle "Auto"
       (setInputText ""
          (setCurrentCard None (setBlueprint None (setWorkflow IDLE st))))).

(** The [onClick] of each control. *)
Definition click (c : Control) (st : AppState) (w : W) : Run W :=
  match c with
  | AnalyzeButton => handleAnalyze st w
  | OutlineButton idx => handleGenerateCard st (Z.of_nat idx) w
  | StartButton => handleGenerateCard st 0 w
  | NextButton => handleNext st w
  | ResetButton => ignored (handleReset st) w
  end.

End Controller.

(* ===================================================================== *)
(** * The export pipeline ([downloadAsImage])                              *)
(* ===================================================================== *)

(** Reading a DOM property either yields a value or throws. *)
Inductive Access (A : Type) : Type :=
| Reads (a : A)
| Throws (e : JsValue).
Arguments Reads {A} a.
Arguments Throws {A} e.

Record StyleSheet : Type := {
  cssRules : Access (list string)
}.

(** What the filter reads of a node: [tagName] ([None] for a node that
    is not an element) and [sheet] ([None] for [null] or [undefined]). *)
Record Node : Type := {
  tagName : option string;
  sheet : option StyleSheet
}.

Definition filter (node : Node) : bool :=
  match tagName node with
  | Some tag =>
      if String.eqb tag "LINK" then
        match sheet node with
        | Some sheet =>
            match cssRules sheet with
            | Reads rules => true
            | Throws e => false
            end
        | None => true
        end
      else true
  | None => true
  end.

(** The character class of the regular expression in the download name:
    backslash, slash, colon, star, question mark, double quote, angle
    brackets and bar. *)
Definition unsafeChar (c : ascii) : bool :=
  existsb (Ascii.eqb c)
    (backslash :: dquote :: list_ascii_of_string "/:*?<>|").

(** [title.replace(/[...]/g, '_')] *)
Definition sanitize (title : string) : string :=
  JsString.map (fun c => if unsafeChar c then "_"%char else c) title.

Definition downloadName (title : string) : string :=
  ("知识卡-" ++ sanitize title ++ ".png")%string.

Record Document : Type := {
  cardContainer : option Node;   (* querySelector('.card-container') *)
  docBody : option Node          (* body *)
}.

Inductive UiEffect : Type :=
| Alert (message : string)
| Download (name href : string).

Definition corsAlert : string :=
  "导出由于浏览器安全限制失败（CORS）。建议直接使用“复制代码”功能，或刷新并选择不同的风格。".
Definition exportAlert : string :=
  "生成图片失败，请尝试复制代码或重试。".

(** The test of the [catch] block,
    [err.name === 'SecurityError' || err.message?.includes('SecurityError')].
    Reading [name] of [undefined] or [null] throws, and so does calling
    [includes] on a message that is neither a string nor an array. *)
Definition isSecurityError (err : JsValue) : Access bool :=
  match err with
  | JUndefined =>
      Throws (TypeError "Cannot read properties of undefined (reading 'name')")
  | JNull =>
      Throws (TypeError "Cannot read properties of null (reading 'name')")
  | _ =>
      match getOpt err "name" with
      | JStr "SecurityError" => Reads true
      | _ =>
          match getOpt err "message" with
          | JStr m => Reads (includes m "SecurityError")
          | JUndefined | JNull => Reads false
          | JArr items =>
              Reads (existsb (fun x => match x with
                                       | JStr "SecurityError" => true
                                       | _ => false
                                       end) items)
          | _ => Throws (TypeError "err.message?.includes is not a function")
          end
      end
  end.

Section ExportPipeline.

(** [htmlToImage.toPng(node, { filter, ... })] *)
Variable toPng : Node -> (Node -> bool) -> Result string.

(** [iframe] is [iframeRef.current] reduced to the document it gives
    access to ([contentDocument || contentWindow?.document]).  The wait
    for the fonts, whose failure is swallowed, is not modelled. *)
Definition downloadAsImage (iframe : option (option Document))
    (st : AppState) : AppState * list UiEffect * option JsValue :=
  match iframe, currentCard st with
  | Some iframeDoc, Some card =>
      let attempt : Result (list UiEffect) :=
        match iframeDoc with
        | None => Rejected (nativeError "Error" "无法读取 iframe 内容")
        | Some doc =>
            match match cardContainer doc with
                  | Some n => Some n
                  | None => docBody doc
                  end with
            | None => Rejected (nativeError "Error" "找不到卡片容器节点")
            | Some container =>
                match toPng container filter with
                | Resolved dataUrl =>
                    Resolved [Download (downloadName (cardTitle card))
                                dataUrl]
                | Rejected e => Rejected e
                end
            end
        end in
      let st' := setIsDownloading false (setIsDownloading true st) in
      match attempt with
      | Resolved effects => (st', effects, None)
      | Rejected err =>
          match isSecurityError err with
          | Reads true => (st', [Alert corsAlert], None)
          | Reads false => (st', [Alert exportAlert], None)
          | Throws e => (st', [], Some e)
          end
      end
  | _, _ => (st, [], None)
  end.

End ExportPipeline.

(** The request [generateCardHTML] builds for the outline [card] at
    index [i] of the blueprint [b]. *)
Definition renderRequest (b : DesignBlueprint) (i : Z) (card : CardOutline)
  : GenRequest :=
  RenderRequest "gemini-3-pro-preview"
    (title card) (join "；" (points card))
    (style b) (themeColor b) (secondaryColor b)
    (i + 1) (Z.of_nat (List.length (cardOutlines b))) (i =? 0)%Z.

(** A text that is empty or made of white space only: a sequence of
    encodings of white-space characters. *)
Inductive WhiteOnly : string -> Prop :=
| white_nil : WhiteOnly ""
| white_cons (w s : string) :
    In w whiteSpace -> WhiteOnly s -> WhiteOnly (w ++ s).

(* ===================================================================== *)
(** * Concrete worlds used to run the model                                *)
(* ===================================================================== *)

Module Demo.

(** The world is the number of requests served so far; timers do not
    change it. *)
Definition noTimer (ms : Z) (w : nat) : nat := w.

(** A capability that answers request number [k] with the [k]-th entry
    of [replies], and with [fallback] after the last one. *)
Definition scripted (replies : list (Result (option string)))
    (fallback : Result (option string))
  : GenRequest -> nat -> Result (option string) * nat :=
  fun _ k => (nth k replies fallback, S k).

Definition noParse (text : string) : option DesignBlueprint := None.

Definition quotaError : JsValue :=
  JObj [("name", JStr "ApiError"); ("status", JNum 429)]
       [("message", JStr "Resource has been exhausted")].

Definition alwaysQuota : @Async nat unit nat :=
  fun w => (Rejected quotaError, S w, [tt]).

Definition alwaysUndefined : @Async nat unit nat :=
  fun w => (Rejected JUndefined, S w, [tt]).

Definition alwaysBroken : @Async nat unit nat :=
  fun w => (Rejected (TypeError "x is not a function"), S w, [tt]).

(** The function [tooManyRequests] after
    [const tooManyRequests = () => {}; tooManyRequests.status = 429]. *)
Definition throttled : JsValue :=
  JFun [("length", JNum 0); ("name", JStr "tooManyRequests");
        ("status", JNum 429)].

Definition alwaysThrottled : @Async nat unit nat :=
  fun w => (Rejected throttled, S w, [tt]).

Definition outline (t : string) : CardOutline :=
  {| title := t; points := ["first"; "second"] |}.

Definition twoCards : DesignBlueprint :=
  {| style := Modern; themeColor := "#112233"; secondaryColor := "#445566";
     fontPairing := {| heading := "Inter"; body := "Noto Sans SC" |};
     cardOutlines := [outline "Cover"; outline "Details"];
     description := "two cards" |}.

Definition parseTwo (text : string) : option DesignBlueprint :=
  Some twoCards.

Definition rendering : AppState :=
  {| inputText := "some text"; selectedStyle := "Auto";
     workflow := GENERATING_CARD; blueprint := Some twoCards;
     currentCard := None; error := None; isDownloading := false |}.

Definition analysing : AppState :=
  {| inputText := "some text"; selectedStyle := "Auto";
     workflow := ANALYZING; blueprint := None;
     currentCard := None; error := None; isDownloading := false |}.

(** Space, line feed, tab and a no-break space. *)
Definition blank : AppState :=
  setInputText (bytes [32; 10; 9; 194; 160]) initialState.

Definition shown : AppState :=
  {| inputText := "some text"; selectedStyle := "Auto";
     workflow := CARD_READY; blueprint := Some twoCards;
     currentCard := Some {| index := 0; html := "<p>card</p>";
                            cardTitle := "Q&A: what/why?" |};
     error := None; isDownloading := false |}.

Definition lastShown : AppState :=
  setCurrentCard (Some {| index := 1; html := "<p>card</p>";
                          cardTitle := "Details" |}) shown.

Definition page : Document :=
  {| cardContainer := Some {| tagName := Some "DIV"; sheet := None |};
     docBody := Some {| tagName := Some "BODY"; sheet := None |} |}.

Definition png (node : Node) (keep : Node -> bool) : Result string :=
  Resolved "data:image/png;base64,iVBORw0KGgo=".

End Demo.

(* ===================================================================== *)
(** * Sessions: the handlers driven through the view                       *)
(* ===================================================================== *)

(** The request [analyzeDocument] builds for a text and a style
    preference. *)
Definition analysisRequest (text preferredStyle : string) : GenRequest :=
  AnalysisRequest "gemini-3-flash-preview"
    (if String.eqb preferredStyle "Auto"
     then "从（Academic, Modern, Tech, Handwritten, Business）中选择最匹配的风格。"
     else ("强制使用指定风格：" ++ preferredStyle ++ "。")%string)
    text.

(** What the user can do: click a control, type into the text area
    ([onChange] calls [setInputText]) or pick a style
    ([onClick] calls [setSelectedStyle]). *)
Inductive UserAction : Type :=
| Click (c : Control)
| TypeText (text : string)
| PickStyle (id : string).

(** The text area and the style buttons are rendered with the input form
    only. *)
Definition possible (st : AppState) (a : UserAction) : bool :=
  match a with
  | Click c => enabled st c
  | TypeText _ | PickStyle _ => showsForm st
  end.

(** The current card is a card of the blueprint: its index is the index
    of an outline and its title is the title of that outline. *)
Definition cardBelongs (b : DesignBlueprint) (card : GeneratedCard) : Prop :=
  exists outline,
    at_index (cardOutlines b) (index card) = Some outline
    /\ cardTitle card = title outline.

(** The states the component rests in between two actions. *)
Definition Stable (st : AppState) : Prop :=
  isDownloading st = false
  /\ match workflow st with
     | IDLE => blueprint st = None /\ currentCard st = None
     | BLUEPRINT_READY =>
         exists b, blueprint st = Some b
                   /\ forall card, currentCard st = Some card ->
                                   cardBelongs b card
     | CARD_READY =>
         exists b card, blueprint st = Some b
                        /\ currentCard st = Some card
                        /\ cardBelongs b card
                        /\ error st = None
     | ANALYZING | GENERATING_CARD | ERROR => False
     end.

Section Sessions.

Context {W : Type}.
Variable setTimeout : Z -> W -> W.
Variable generateContent : GenRequest -> W -> Result (option string) * W.
Variable parseBlueprint : string -> option DesignBlueprint.

(** One action, its handler run to completion. *)
Definition perform (a : UserAction) (st : AppState) (w : W) : AppState * W :=
  match a with
  | Click c =>
      let r := click setTimeout generateContent parseBlueprint c st w in
      (final r, world r)
  | TypeText text => (setInputText text st, w)
  | PickStyle id => (setSelectedStyle id st, w)
  end.

(** A sequence of actions, each possible in the state it meets; [None]
    when one of them is not. *)
Fixpoint session (l : list UserAction) (st : AppState) (w : W)
  : option (AppState * W) :=
  match l with
  | [] => Some (st, w)
  | a :: l' =>
      if possible st a
      then let '(st', w') := perform a st w in session l' st' w'
      else None
  end.

End Sessions.

Module Sample.

(** An operation that fails with a quota error in its first two worlds
    and answers afterwards. *)
Definition flaky : @Async nat unit string :=
  fun w => if (w <? 2)%nat
           then (Rejected Demo.quotaError, S w, [tt])
           else (Resolved "done", S w, [tt]).

(** A plain [Error] whose message speaks of the quota. *)
Definition quotaInMessage : JsValue :=
  nativeError "Error" "429 Too Many Requests: quota exceeded".

Definition alwaysQuotaMessage : @Async nat unit nat :=
  fun w => (Rejected quotaInMessage, S w, [tt]).

(** An error whose [status] is inherited or not enumerable. *)
Definition hiddenStatus : JsValue :=
  JObj [] [("status", JNum 429)].

Definition securityError : JsValue :=
  JObj [] [("name", JStr "SecurityError");
           ("message", JStr "Failed to read the 'cssRules' property")].

Definition tainted (node : Node) (keep : Node -> bool) : Result string :=
  Rejected securityError.

Definition ready : AppState :=
  {| inputText := "some text"; selectedStyle := "Auto";
     workflow := BLUEPRINT_READY; blueprint := Some Demo.twoCards;
     currentCard := None; error := None; isDownloading := false |}.

Definition typed : AppState := setInputText "  Hello world " initialState.

Definition coverCard : GeneratedCard :=
  {| index := 0; html := "<p>cover</p>"; cardTitle := "Cover" |}.

Definition onCover : AppState :=
  setCurrentCard (Some coverCard) Demo.shown.

(** Type a text, analyse it, render the cover, go to the next card. *)
Definition tour : list UserAction :=
  [TypeText "Hello world"; Click AnalyzeButton; Click StartButton;
   Click NextButton].

Definition cardAnswer : GenRequest -> nat -> Result (option string) * nat :=
  Demo.scripted [] (Resolved (Some "```html<p>card</p>```")).

End Sample.

(* ===================================================================== *)
(** * Properties of the retry executor                                     *)
(* ===================================================================== *)

#[local] Arguments backoff : simpl never.

Lemma backoff_S (n : nat) (delay : Z) :
  backoff (S n) delay = delay :: backoff n (delay * 2).
Proof.
  unfold backoff. cbn [seq List.map]. f_equal.
  - change (Z.of_nat 0) with 0%Z. lia.
  - rewrite <- seq_shift, List.map_map. apply List.map_ext.
    intros k. rewrite Nat2Z.inj_succ, Z.pow_succ_r by lia. lia.
Qed.

(** An error the code classifies is classified in the words of the
    design document. *)
Lemma isRateLimit_classified (error : JsValue) :
  isRateLimit error = Some true -> RateLimitClassified error.
Proof.
  unfold RateLimitClassified, isRateLimit.
  destruct (stringify error) as [str|]; [|discriminate].
  intros [= H].
  apply orb_true_iff in H as [H | H].
  - apply orb_true_iff in H as [H | H].
    + apply orb_true_iff in H as [H | H]; left; eauto.
    + right; left. destruct (getOpt error "status"); try discriminate.
      simpl in H. apply Z.eqb_eq in H. now subst.
  - right; right. destruct (getOpt error "code"); try discriminate.
    simpl in H. apply Z.eqb_eq in H. now subst.
Qed.

(** The converse needs the JSON form: the serialisation comes first in
    the [catch] block, and without a JSON form the status and the code
    are never looked at. *)
Lemma classified_isRateLimit (error : JsValue) (str : string) :
  stringify error = Some str ->
  RateLimitClassified error -> isRateLimit error = Some true.
Proof.
  unfold RateLimitClassified, isRateLimit. intros ->.
  intros [(str' & [= <-] & H) | [H | H]].
  - f_equal. destruct H as [-> | ->]; simpl;
      rewrite ?orb_true_r; reflexivity.
  - rewrite H. simpl. now rewrite ?orb_true_r.
  - rewrite H. simpl. now rewrite ?orb_true_r.
Qed.

Lemma isRateLimit_unclassified (error : JsValue) :
  isRateLimit error = Some false -> ~ RateLimitClassified error.
Proof.
  intros Hc H. unfold isRateLimit in Hc.
  destruct (stringify error) as [str|] eqn:Hs; [|discriminate].
  apply (classified_isRateLimit _ _ Hs) in H.
  unfold isRateLimit in H. rewrite Hs in H. congruence.
Qed.

(** Without a JSON form the classification is not computed at all. *)
Lemma isRateLimit_unserialisable (error : JsValue) :
  stringify error = None -> isRateLimit error = None.
Proof. unfold isRateLimit. now intros ->. Qed.

Lemma startsWith_map (f : ascii -> ascii) (p s : string) :
  startsWith p s = true ->
  startsWith (JsString.map f p) (JsString.map f s) = true.
Proof.
  revert s; induction p as [|a p IH]; intros [|b s]; simpl;
    try reflexivity; try discriminate.
  intros H. apply andb_true_iff in H as [Hab H].
  apply Ascii.eqb_eq in Hab. subst b.
  rewrite Ascii.eqb_refl. simpl. auto.
Qed.

Lemma includes_map (f : ascii -> ascii) (s needle : string) :
  includes s needle = true ->
  includes (JsString.map f s) (JsString.map f needle) = true.
Proof.
  unfold includes. induction s as [|c s IH]; cbn [indexOf JsString.map].
  - destruct (startsWith needle "") eqn:E; [|discriminate]. intros _.
    apply (startsWith_map f) in E. cbn [JsString.map] in E. now rewrite E.
  - destruct (startsWith needle (String c s)) eqn:E.
    + intros _. apply (startsWith_map f) in E. cbn [JsString.map] in E.
      now rewrite E.
    + destruct (indexOf needle s); [|discriminate]. intros _.
      specialize (IH eq_refl).
      destruct (startsWith (JsString.map f needle)
                  (String (f c) (JsString.map f s))); [reflexivity|].
      destruct (indexOf (JsString.map f needle) (JsString.map f s));
        [reflexivity | discriminate].
Qed.

(** A serialised form that contains ['429'] or ['quota'] as written is
    classified: lower-casing the text keeps both. *)
Lemma classified_literal (error : JsValue) (str : string) :
  stringify error = Some str ->
  includes str "429" = true \/ includes str "quota" = true ->
  RateLimitClassified error.
Proof.
  intros Hs H. left. exists str. split; [exact Hs|].
  destruct H as [H | H]; [left | right];
    apply (includes_map lower_char) in H; exact H.
Qed.

Section RetryFacts.

Context {W F T : Type}.
Variable setTimeout : Z -> W -> W.

(** The body of [withRetry], as the source reads. *)
Lemma withRetry_body (fn : @Async W F T) (retries delay : Z) (w : W) :
  withRetry setTimeout fn retries delay w =
  match fn w with
  | (Resolved v, w1, tr) => (Resolved v, w1, Attempt :: List.map Inner tr)
  | (Rejected error, w1, tr) =>
      match isRateLimit error with
      | None =>
          (Rejected toLowerCase_of_undefined, w1,
           Attempt :: List.map Inner tr)
      | Some rateLimit =>
          if (0 <? retries)%Z && rateLimit
          then after (Attempt :: List.map Inner tr ++ [Wait delay])
                 (withRetry setTimeout fn (retries - 1) (delay * 2)
                    (setTimeout delay w1))
          else (Rejected error, w1, Attempt :: List.map Inner tr)
      end
  end.
Proof.
  simp withRetry.
  destruct (fn w) as [[[v|error] w1] tr]; simpl; [reflexivity|].
  destruct (isRateLimit error) as [rl|]; simpl; [|reflexivity].
  destruct ((0 <? retries)%Z && rl); reflexivity.
Qed.

Lemma after_eq (pre : list (RetryEvent F)) (r : Result T) (w : W)
    (tr : list (RetryEvent F)) :
  after pre (r, w, tr) = (r, w, pre ++ tr).
Proof. reflexivity. Qed.

Lemma attempts_app (a b : list (RetryEvent F)) :
  attempts (a ++ b) = (attempts a + attempts b)%nat.
Proof.
  induction a as [|[| |] a IH]; simpl; auto.
Qed.

Lemma waits_app (a b : list (RetryEvent F)) :
  waits (a ++ b) = waits a ++ waits b.
Proof.
  induction a as [|[| |] a IH]; simpl; auto. now rewrite IH.
Qed.

Lemma schedule_app (a b : list (RetryEvent F)) :
  schedule (a ++ b) = schedule a ++ schedule b.
Proof.
  induction a as [|[| |] a IH]; simpl; auto; now rewrite IH.
Qed.

Lemma attempts_Inner (l : list F) : attempts (List.map Inner l) = 0%nat.
Proof. induction l; simpl; auto. Qed.

Lemma waits_Inner (l : list F) : waits (List.map Inner l) = [].
Proof. induction l; simpl; auto. Qed.

Lemma schedule_Inner (l : list F) : schedule (List.map Inner l) = [].
Proof. induction l; simpl; auto. Qed.

Lemma inner_Inner (l : list F) : inner (List.map Inner l) = l.
Proof. induction l; simpl; auto. now f_equal. Qed.

(** A failure whose classification evaluates to [false] ends the run
    at once: one call, no timer, the same rejection value. *)
Lemma withRetry_unclassified (fn : @Async W F T) (retries delay : Z)
    (w w1 : W) (e : JsValue) (tr : list F) :
  fn w = (Rejected e, w1, tr) ->
  isRateLimit e = Some false ->
  withRetry setTimeout fn retries delay w =
    (Rejected e, w1, Attempt :: List.map Inner tr).
Proof.
  intros Hfn Hcls. rewrite withRetry_body, Hfn, Hcls.
  now rewrite andb_false_r.
Qed.

(** A failure without a JSON form ends the run at once as well, with
    the [TypeError] of the [catch] block in place of the failure. *)
Lemma withRetry_unserialisable (fn : @Async W F T) (retries delay : Z)
    (w w1 : W) (e : JsValue) (tr : list F) :
  fn w = (Rejected e, w1, tr) ->
  stringify e = None ->
  withRetry setTimeout fn retries delay w =
    (Rejected toLowerCase_of_undefined, w1, Attempt :: List.map Inner tr).
Proof.
  intros Hfn Hs.
  now rewrite withRetry_body, Hfn, (isRateLimit_unserialisable _ Hs).
Qed.

(** Whatever the executor rejects with has a serialised form. *)
Lemma withRetry_rejection_serialisable (fn : @Async W F T) (n : nat) :
  forall (retries delay : Z) (w w' : W) (e : JsValue)
         (tr : list (RetryEvent F)),
    Z.to_nat retries = n ->
    withRetry setTimeout fn retries delay w = (Rejected e, w', tr) ->
    exists str, stringify e = Some str.
Proof.
  induction n as [|n IH]; intros retries delay w w' e tr Hn;
    rewrite withRetry_body;
    destruct (fn w) as [[[v|error] w1] tr0]; try discriminate;
    (destruct (isRateLimit error) as [rl|] eqn:Hc;
     [|intros [= <- _ _]; simpl; eauto]);
    unfold isRateLimit in Hc;
    (destruct (stringify error) as [str|] eqn:Hs; [|discriminate]).
  - replace (0 <? retries)%Z with false by (symmetry; apply Z.ltb_ge; lia).
    simpl. intros [= <- _ _]. eauto.
  - destruct ((0 <? retries)%Z && rl) eqn:Hgo.
    + destruct (withRetry setTimeout fn (retries - 1) (delay * 2)
                  (setTimeout delay w1)) as [[r w2] tr2] eqn:Hrec.
      rewrite after_eq. intros [= -> _ _].
      eapply (IH (retries - 1)%Z); [lia | exact Hrec].
    + intros [= <- _ _]. eauto.
Qed.

Lemma withRetry_exhausts (fn : @Async W F T) (n : nat) :
  forall (retries delay : Z) (w : W),
    Z.to_nat retries = n -> (0 <= retries)%Z ->
    (forall k, (k <= n)%nat ->
       exists e,
         fst (fst (fn (attemptWorld setTimeout fn delay w k))) = Rejected e
         /\ isRateLimit e = Some true) ->
    exists tr,
      withRetry setTimeout fn retries delay w =
        (fst (fst (fn (attemptWorld setTimeout fn delay w n))),
         snd (fst (fn (attemptWorld setTimeout fn delay w n))), tr)
      /\ attempts tr = S n
      /\ waits tr = backoff n delay
      /\ schedule tr =
           Attempt :: flat_map (fun d => [Wait d; Attempt]) (backoff n delay).
Proof.
  induction n as [|n IH]; intros retries delay w Hn Hpos Hall;
    rewrite withRetry_body.
  - destruct (Hall 0%nat (Nat.le_refl _)) as (e & He & Hc).
    simpl in *. destruct (fn w) as [[r w1] tr0]. simpl in He. subst r.
    rewrite Hc.
    replace (0 <? retries)%Z with false by (symmetry; apply Z.ltb_ge; lia).
    simpl. eexists. split; [reflexivity|].
    simpl. rewrite attempts_Inner, waits_Inner, schedule_Inner.
    repeat split; reflexivity.
  - destruct (Hall 0%nat (Nat.le_0_l _)) as (e & He & Hc).
    simpl in He. simpl attemptWorld.
    destruct (fn w) as [[r w1] tr0] eqn:Hfn. simpl in He. subst r.
    rewrite Hc.
    replace (0 <? retries)%Z with true by (symmetry; apply Z.ltb_lt; lia).
    simpl andb. cbv iota.
    destruct (IH (retries - 1)%Z (delay * 2)%Z (setTimeout delay w1))
      as (tr & Heq & Ha & Hw & Hs); [lia | lia | |].
    + intros k Hk. destruct (Hall (S k)) as (e' & He' & Hc'); [lia|].
      simpl in He'. rewrite Hfn in He'. simpl in He'. eauto.
    + rewrite backoff_S. simpl. rewrite Heq, after_eq.
      eexists. split; [reflexivity|]. simpl.
      rewrite !attempts_app, !waits_app, !schedule_app.
      rewrite attempts_Inner, waits_Inner, schedule_Inner.
      simpl. rewrite Ha, Hw, Hs. repeat split; reflexivity.
Qed.

End RetryFacts.

(** C1: at an operation whose every attempt rejects with a function
    whose [status] is 429, a rate-limit-classified error in the words of
    the design document, the executor does not call the operation
    [retries + 1] times.  [JSON.stringify] of a function is [undefined]
    and [.toLowerCase()] throws in the [catch] block before the status
    is looked at: the run ends after one call, with no timer, and
    rejects with that [TypeError], not with the error of the operation.
    The same status on an object that has a JSON form is retried to the
    end of the budget. *)
Theorem withRetry_status_without_json_form_not_retried :
  (forall w, Demo.alwaysThrottled w = (Rejected Demo.throttled, S w, [tt]))
  /\ RateLimitClassified Demo.throttled
  /\ getOpt Demo.throttled "status" = JNum 429
  /\ stringify Demo.throttled = None
  /\ withRetry Demo.noTimer Demo.alwaysThrottled 3 3000 0%nat
     = (Rejected toLowerCase_of_undefined, 1%nat, [Attempt; Inner tt])
  /\ Z.of_nat
       (attempts (snd (withRetry Demo.noTimer Demo.alwaysThrottled
                         3 3000 0%nat))) <> (3 + 1)%Z
  /\ toLowerCase_of_undefined <> Demo.throttled
  /\ attempts (snd (withRetry Demo.noTimer Demo.alwaysQuota 3 3000 0%nat))
     = 4%nat.
Proof.
  split; [reflexivity|].
  split; [right; left; reflexivity|].
  repeat split; try reflexivity; discriminate.
Qed.

(** C2: at an operation that rejects with [undefined], a value that is
    not rate-limit-classified, the executor calls the operation once and
    sets no timer, but the value it rejects with is the [TypeError] of
    [JSON.stringify(error).toLowerCase()], not the value the operation
    rejected with. *)
Theorem withRetry_undefined_rejection_replaced :
  ~ RateLimitClassified JUndefined
  /\ withRetry Demo.noTimer Demo.alwaysUndefined 3 3000 0%nat
     = (Rejected toLowerCase_of_undefined, 1%nat, [Attempt; Inner tt])
  /\ toLowerCase_of_undefined <> JUndefined.
Proof.
  split; [|split].
  - intros [(str & H & _) | [H | H]]; discriminate.
  - reflexivity.
  - discriminate.
Qed.

(** Any other failure ends the run after one call, unchanged. *)
Example withRetry_other_error_once :
  withRetry Demo.noTimer Demo.alwaysBroken 3 3000 0%nat
  = (Rejected (TypeError "x is not a function"), 1%nat, [Attempt; Inner tt]).
Proof. reflexivity. Qed.

(** Two rate-limit failures and then an answer, within the budget of
    three retries: the analysis ends in [BLUEPRINT_READY] without a
    message, after three calls and the timers 3000 and 6000. *)
Example analysis_succeeds_on_third_attempt :
  let r := handleAnalyze Demo.noTimer
             (Demo.scripted [Rejected Demo.quotaError;
                             Rejected Demo.quotaError]
                (Resolved (Some "{}")))
             Demo.parseTwo (setInputText "Hello world" initialState) 0%nat in
  workflow (final r) = BLUEPRINT_READY
  /\ blueprint (final r) = Some Demo.twoCards
  /\ error (final r) = None
  /\ attempts (events r) = 3%nat
  /\ waits (events r) = [3000; 6000]%Z
  /\ uncaught r = None.
Proof. repeat split; reflexivity. Qed.

(* ===================================================================== *)
(** * Properties of the card renderer                                      *)
(* ===================================================================== *)

Lemma at_index_in_range {A : Type} (arr : list A) (i : Z) :
  (0 <= i < Z.of_nat (List.length arr))%Z ->
  exists x, at_index arr i = Some x.
Proof.
  intros H. unfold at_index.
  replace (i <? 0)%Z with false by (symmetry; apply Z.ltb_ge; lia).
  destruct (nth_error arr (Z.to_nat i)) as [x|] eqn:E; [eauto|].
  apply nth_error_None in E. lia.
Qed.

Lemma at_index_out_of_range {A : Type} (arr : list A) (i : Z) :
  (i < 0 \/ Z.of_nat (List.length arr) <= i)%Z ->
  at_index arr i = None.
Proof.
  intros H. unfold at_index. destruct (i <? 0)%Z eqn:E; [reflexivity|].
  apply Z.ltb_ge in E. apply nth_error_None. lia.
Qed.

Section RendererFacts.

Context {W : Type}.
Variable setTimeout : Z -> W -> W.
Variable generateContent : GenRequest -> W -> Result (option string) * W.

(** With an outline at the index, the first thing the renderer does is
    to call the operation, and the first thing the operation does is to
    send the request for that outline. *)
Lemma generateCardHTML_sends_request (b : DesignBlueprint) (i : Z)
    (card : CardOutline) (w : W) :
  at_index (cardOutlines b) i = Some card ->
  exists r w' tr,
    generateCardHTML setTimeout generateContent b i w =
      (r, w', Attempt :: Inner (renderRequest b i card) :: tr).
Proof.
  intros Hcard. unfold generateCardHTML.
  rewrite withRetry_body. cbv beta zeta. rewrite Hcard.
  fold (renderRequest b i card).
  destruct (generateContent (renderRequest b i card) w)
    as [[[text|]|e] w1].
  - destruct (extractHtml text); simpl; eauto.
  - simpl. eauto.
  - destruct (isRateLimit e) as [rl|]; [|simpl; eauto].
    destruct ((0 <? 3)%Z && rl); [|simpl; eauto].
    destruct (withRetry _ _ _ _ _) as [[r w2] tr2].
    rewrite after_eq. simpl. eauto.
Qed.

End RendererFacts.

(** C10: for an index outside [0, N) the outline lookup yields no card,
    the body of [generateCardHTML] throws on [card.title] before any
    request is sent, the error is not rate-limit-classified, and the
    executor makes one attempt, sets no timer and rejects with that
    error; for an index inside [0, N) the lookup in [generateCardHTML]
    yields a card and does not fault: the run goes on to send the
    request written for that card. *)
Theorem generateCardHTML_index_out_of_range
    {W : Type} (setTimeout : Z -> W -> W)
    (generateContent : GenRequest -> W -> Result (option string) * W)
    (blueprint : DesignBlueprint) (cardIndex : Z) (w : W) :
  ((cardIndex < 0 \/
    Z.of_nat (List.length (cardOutlines blueprint)) <= cardIndex)%Z ->
   let run := generateCardHTML setTimeout generateContent
                blueprint cardIndex w in
   at_index (cardOutlines blueprint) cardIndex = None
   /\ run = (Rejected title_of_undefined, w, [Attempt])
   /\ inner (snd run) = []
   /\ attempts (snd run) = 1%nat
   /\ waits (snd run) = []
   /\ ~ RateLimitClassified title_of_undefined)
  /\
  ((0 <= cardIndex < Z.of_nat (List.length (cardOutlines blueprint)))%Z ->
   exists card r w' tr,
     at_index (cardOutlines blueprint) cardIndex = Some card
     /\ generateCardHTML setTimeout generateContent blueprint cardIndex w
        = (r, w',
           Attempt :: Inner (renderRequest blueprint cardIndex card) :: tr)).
Proof.
  split.
  - intros Hout run.
    pose proof (at_index_out_of_range _ _ Hout) as Hnone.
    assert (Hrun : run = (Rejected title_of_undefined, w, [Attempt])).
    { unfold run, generateCardHTML.
      rewrite (withRetry_unclassified setTimeout _ 3 3000 w w
                 title_of_undefined []); [reflexivity | | reflexivity].
      cbv beta zeta. rewrite Hnone. reflexivity. }
    rewrite Hrun. repeat split; try assumption.
    apply isRateLimit_unclassified. reflexivity.
  - intros Hin. destruct (at_index_in_range _ _ Hin) as [card Hcard].
    destruct (generateCardHTML_sends_request setTimeout generateContent
                blueprint cardIndex card w Hcard) as (r & w' & tr & Hrun).
    exists card, r, w', tr. split; assumption.
Qed.

Lemma generateCardHTML_index_out_of_range_witness :
  (let run := generateCardHTML Demo.noTimer
                (Demo.scripted [] (Resolved (Some "<p>card</p>")))
                Demo.twoCards 2 0%nat in
   at_index (cardOutlines Demo.twoCards) 2 = None
   /\ run = (Rejected title_of_undefined, 0%nat, [Attempt])
   /\ inner (snd run) = []
   /\ attempts (snd run) = 1%nat
   /\ waits (snd run) = []
   /\ ~ RateLimitClassified title_of_undefined)
  /\ exists card r w' tr,
       at_index (cardOutlines Demo.twoCards) 1 = Some card
       /\ generateCardHTML Demo.noTimer
            (Demo.scripted [] (Resolved (Some "<p>card</p>")))
            Demo.twoCards 1 0%nat
          = (r, w',
             Attempt :: Inner (renderRequest Demo.twoCards 1 card) :: tr).
Proof.
  split.
  - apply (proj1 (generateCardHTML_index_out_of_range
                    Demo.noTimer
                    (Demo.scripted [] (Resolved (Some "<p>card</p>")))
                    Demo.twoCards 2 0%nat)).
    right. simpl. lia.
  - apply (proj2 (generateCardHTML_index_out_of_range
                    Demo.noTimer
                    (Demo.scripted [] (Resolved (Some "<p>card</p>")))
                    Demo.twoCards 1 0%nat)).
    simpl. lia.
Defined.

(* ===================================================================== *)
(** * Facts about strings                                                  *)
(* ===================================================================== *)

Section StringFacts.

Local Open Scope string_scope.

Lemma length_app (a b : string) :
  String.length (a ++ b) = (String.length a + String.length b)%nat.
Proof. induction a as [|c a IH]; simpl; auto. Qed.


Lemma drop_app (a b : string) (n : nat) :
  drop (String.length a + n) (a ++ b) = drop n b.
Proof. induction a as [|c a IH]; simpl; auto. Qed.



Lemma startsWith_mono (p x y : string) :
  startsWith p x = true -> startsWith p (x ++ y) = true.
Proof.
  revert x; induction p as [|c p IH]; intros [|d x]; simpl;
    try reflexivity; try discriminate.
  intros H. apply andb_true_iff in H as [-> H]. simpl. auto.
Qed.




Lemma indexOf_none_app (sep a b : string) :
  indexOf sep (a ++ b) = None -> indexOf sep a = None.
Proof.
  induction a as [|c a IH].
  - destruct sep; [destruct b; discriminate | reflexivity].
  - change ((String c a) ++ b) with (String c (a ++ b)).
    cbn [indexOf].
    destruct (startsWith sep (String c (a ++ b))) eqn:E1; [discriminate|].
    destruct (indexOf sep (a ++ b)) eqn:E2; [discriminate|].
    intros _. rewrite (IH eq_refl).
    destruct (startsWith sep (String c a)) eqn:E3; [|reflexivity].
    apply (startsWith_mono _ _ b) in E3. simpl in E3. congruence.
Qed.


Lemma indexOf_occurs (needle s : string) (i : nat) :
  indexOf needle s = Some i -> startsWith needle (drop i s) = true.
Proof.
  revert i; induction s as [|c s IH]; intros i; cbn [indexOf].
  - destruct (startsWith needle "") eqn:E; [|discriminate].
    now intros [= <-].
  - destruct (startsWith needle (String c s)) eqn:E.
    + now intros [= <-].
    + destruct (indexOf needle s) as [j|]; [|discriminate].
      intros [= <-]. simpl. now apply IH.
Qed.

(** No occurrence starts before the one [indexOf] reports. *)
Lemma indexOf_least (needle s : string) (i j : nat) :
  indexOf needle s = Some i -> startsWith needle (drop j s) = true ->
  (i <= j)%nat.
Proof.
  revert i j; induction s as [|c s IH]; intros i j; cbn [indexOf].
  - destruct (startsWith needle "") eqn:E; [|discriminate].
    intros [= <-] _. lia.
  - destruct (startsWith needle (String c s)) eqn:E.
    + intros [= <-] _. lia.
    + destruct (indexOf needle s) as [k|] eqn:Ek; [|discriminate].
      intros [= <-]. destruct j as [|j]; simpl.
      * congruence.
      * intros H. specialize (IH k j eq_refl H). lia.
Qed.


Lemma includes_false (s needle : string) :
  includes s needle = false <-> indexOf needle s = None.
Proof.
  unfold includes. destruct (indexOf needle s); split; congruence.
Qed.

Lemma split_found (a : ascii) (sep' s : string) (i : nat) :
  indexOf (String a sep') s = Some i ->
  split (String a sep') s =
    take i s :: split (String a sep') (drop (i + S (String.length sep')) s).
Proof.
  intros H.
  remember (split (String a sep') (drop (i + S (String.length sep')) s))
    as rest eqn:Hrest.
  simp split.
  destruct (inspect (indexOf (String a sep') s)) as [[j|] e]; simpl.
  - assert (j = i) by congruence. subst. reflexivity.
  - congruence.
Qed.

Lemma split_none (a : ascii) (sep' s : string) :
  indexOf (String a sep') s = None -> split (String a sep') s = [s].
Proof.
  intros H. simp split.
  destruct (inspect (indexOf (String a sep') s)) as [[j|] e]; simpl.
  - congruence.
  - reflexivity.
Qed.

(** [s.split(sep)[0]] is the text before the first occurrence. *)
Lemma split_nth_0 (a : ascii) (sep' s : string) :
  nth_error (split (String a sep') s) 0 =
  Some match indexOf (String a sep') s with
       | Some i => take i s
       | None => s
       end.
Proof.
  destruct (indexOf (String a sep') s) as [i|] eqn:E.
  - now rewrite (split_found _ _ _ _ E).
  - now rewrite (split_none _ _ _ E).
Qed.

(** [s.split(sep)[1]] is the text between the first occurrence and the
    next one. *)
Lemma split_nth_1 (a : ascii) (sep' s : string) (i : nat) :
  indexOf (String a sep') s = Some i ->
  nth_error (split (String a sep') s) 1 =
  nth_error
    (split (String a sep') (drop (i + S (String.length sep')) s)) 0.
Proof.
  intros E. now rewrite (split_found _ _ _ _ E).
Qed.

End StringFacts.

(** ** Fence extraction *)






(* ===================================================================== *)
(** * Properties of the workflow controller                                *)
(* ===================================================================== *)

Lemma stripOne_white (w s : string) :
  In w whiteSpace -> stripOne whiteSpace (w ++ s) = Some s.
Proof.
  intros H. vm_compute in H.
  repeat (destruct H as [H | H]; [subst w; reflexivity|]).
  contradiction.
Qed.

Lemma white_nonempty (w : string) :
  In w whiteSpace -> (1 <= String.length w)%nat.
Proof.
  intros H. vm_compute in H.
  repeat (destruct H as [H | H]; [subst w; simpl; lia|]).
  contradiction.
Qed.

Lemma stripAll_white (s : string) :
  WhiteOnly s ->
  forall fuel, (String.length s <= fuel)%nat ->
               stripAll fuel whiteSpace s = "".
Proof.
  induction 1 as [|w s Hw Hs IH]; intros fuel Hfuel.
  - destruct fuel; reflexivity.
  - rewrite length_app in Hfuel. apply white_nonempty in Hw as Hlen.
    destruct fuel as [|fuel]; [lia|].
    cbn [stripAll]. rewrite (stripOne_white _ _ Hw). apply IH. lia.
Qed.

(** [trim] leaves nothing of a text made of white space. *)
Lemma trim_white (s : string) : WhiteOnly s -> trim s = "".
Proof.
  intros H. unfold trim, trimStart.
  now rewrite (stripAll_white s H).
Qed.

(** C6: invoking the analysis with a text that is empty or made of white
    space only returns at once: the state of the component (workflow
    state, blueprint, current card, error message and the rest) and the
    world are what they were, and nothing was attempted or sent. *)
Theorem handleAnalyze_blank_input
    {W : Type} (setTimeout : Z -> W -> W)
    (generateContent : GenRequest -> W -> Result (option string) * W)
    (parseBlueprint : string -> option DesignBlueprint)
    (st : AppState) (w : W) :
  WhiteOnly (inputText st) ->
  handleAnalyze setTimeout generateContent parseBlueprint st w =
    {| final := st; world := w; events := []; uncaught := None |}.
Proof.
  intros H. unfold handleAnalyze. now rewrite (trim_white _ H).
Qed.

Lemma handleAnalyze_blank_input_witness :
  workflow Demo.blank = IDLE
  /\ handleAnalyze Demo.noTimer
       (Demo.scripted [] (Resolved (Some "{}"))) Demo.noParse Demo.blank 0%nat
     = {| final := Demo.blank; world := 0%nat; events := [];
          uncaught := None |}.
Proof.
  split; [reflexivity|].
  apply (handleAnalyze_blank_input Demo.noTimer
           (Demo.scripted [] (Resolved (Some "{}"))) Demo.noParse
           Demo.blank 0%nat).
  change (inputText Demo.blank)
    with (bytes [32] ++ bytes [10] ++ bytes [9] ++ bytes [194; 160] ++ "")%string.
  repeat (apply white_cons; [vm_compute; tauto|]).
  apply white_nil.
Defined.

Section ControllerFacts.

Context {W : Type}.
Variable setTimeout : Z -> W -> W.
Variable generateContent : GenRequest -> W -> Result (option string) * W.
Variable parseBlueprint : string -> option DesignBlueprint.

Lemma recover_events (back : WorkflowState) (err : JsValue)
    (st : AppState) (w : W) (tr : list (RetryEvent GenRequest)) :
  events (recover back err st w tr) = tr.
Proof. unfold recover. destruct (formatErrorMessage err); reflexivity. Qed.

(** The events of a card generation are those of the renderer. *)
Lemma handleGenerateCard_events (st : AppState) (b : DesignBlueprint)
    (i : Z) (w : W) :
  blueprint st = Some b ->
  events (handleGenerateCard setTimeout generateContent st i w) =
  snd (generateCardHTML setTimeout generateContent b i w).
Proof.
  intros Hb. unfold handleGenerateCard. rewrite Hb.
  destruct (generateCardHTML setTimeout generateContent b i w)
    as [[[html|err] w'] tr]; simpl.
  - destruct (at_index (cardOutlines b) i);
      [reflexivity | apply recover_events].
  - apply recover_events.
Qed.

(** What the service rejects with can be formatted. *)
Lemma formatErrorMessage_defined (e : JsValue) :
  (exists str, stringify e = Some str) ->
  exists msg, formatErrorMessage e = Some msg.
Proof.
  intros [str H]. unfold formatErrorMessage. rewrite H.
  destruct (_ || _); eauto.
Qed.

End ControllerFacts.

(** C7: with a blueprint of N outlines and the current card at index
    N-1, [handleNext] does nothing: the state and the world are what they
    were and nothing was attempted or sent.  With the current card at an
    index below N-1, [handleNext] runs the card generation for the next
    index, which calls the renderer and, the next index being a valid
    one, sends the request for the outline at that index. *)
Theorem handleNext_last_or_advance
    {W : Type} (setTimeout : Z -> W -> W)
    (generateContent : GenRequest -> W -> Result (option string) * W)
    (st : AppState) (b : DesignBlueprint) (card : GeneratedCard) (w : W) :
  blueprint st = Some b ->
  currentCard st = Some card ->
  ((index card = Z.of_nat (List.length (cardOutlines b)) - 1)%Z ->
   handleNext setTimeout generateContent st w =
     {| final := st; world := w; events := []; uncaught := None |})
  /\
  ((index card < Z.of_nat (List.length (cardOutlines b)) - 1)%Z ->
   handleNext setTimeout generateContent st w =
     handleGenerateCard setTimeout generateContent st (index card + 1) w
   /\ (exists tr,
         events (handleNext setTimeout generateContent st w) = Attempt :: tr)
   /\ ((0 <= index card + 1)%Z ->
       exists outline tr,
         at_index (cardOutlines b) (index card + 1) = Some outline
         /\ events (handleNext setTimeout generateContent st w) =
              Attempt
                :: Inner (renderRequest b (index card + 1) outline) :: tr)).
Proof.
  intros Hb Hc. unfold handleNext. rewrite Hb, Hc. split.
  - intros ->. now rewrite Z.ltb_irrefl.
  - intros Hlt. apply Z.ltb_lt in Hlt as Hlt'. rewrite Hlt'.
    split; [reflexivity|].
    rewrite (handleGenerateCard_events _ _ st b _ w Hb). split.
    + unfold generateCardHTML. rewrite withRetry_body.
      destruct (_ : Result string * W * list GenRequest) as [[[v|e] w1] tr0].
      * simpl. eauto.
      * destruct (isRateLimit e) as [rl|]; [|simpl; eauto].
        destruct ((0 <? 3)%Z && rl); [|simpl; eauto].
        destruct (withRetry _ _ _ _ _) as [[r w2] tr2].
        rewrite after_eq. simpl. eauto.
    + intros Hpos.
      destruct (at_index_in_range (cardOutlines b) (index card + 1))
        as [outline Ho]; [lia|].
      destruct (generateCardHTML_sends_request setTimeout generateContent
                  b _ outline w Ho) as (r & w' & tr & Heq).
      exists outline, tr. split; [exact Ho|]. now rewrite Heq.
Qed.

Lemma handleNext_last_or_advance_witness :
  handleNext Demo.noTimer (Demo.scripted [] (Resolved (Some "<p>2</p>")))
    Demo.lastShown 0%nat
  = {| final := Demo.lastShown; world := 0%nat; events := [];
       uncaught := None |}
  /\ exists outline tr,
       at_index (cardOutlines Demo.twoCards) (0 + 1) = Some outline
       /\ events (handleNext Demo.noTimer
                    (Demo.scripted [] (Resolved (Some "<p>2</p>")))
                    Demo.shown 0%nat)
          = Attempt :: Inner (renderRequest Demo.twoCards (0 + 1) outline)
              :: tr.
Proof.
  split.
  - apply (proj1 (handleNext_last_or_advance Demo.noTimer
                    (Demo.scripted [] (Resolved (Some "<p>2</p>")))
                    Demo.lastShown Demo.twoCards
                    {| index := 1; html := "<p>card</p>";
                       cardTitle := "Details" |} 0%nat
                    eq_refl eq_refl)).
    reflexivity.
  - apply (proj2 (handleNext_last_or_advance Demo.noTimer
                    (Demo.scripted [] (Resolved (Some "<p>2</p>")))
                    Demo.shown Demo.twoCards
                    {| index := 0; html := "<p>card</p>";
                       cardTitle := "Q&A: what/why?" |} 0%nat
                    eq_refl eq_refl)).
    + simpl. lia.
    + simpl. lia.
Defined.

Section RecoveryFacts.

Context {W : Type}.
Variable setTimeout : Z -> W -> W.
Variable generateContent : GenRequest -> W -> Result (option string) * W.
Variable parseBlueprint : string -> option DesignBlueprint.

Lemma analyzeDocument_rejection (text preferredStyle : string) (w w' : W)
    (e : JsValue) (tr : list (RetryEvent GenRequest)) :
  analyzeDocument setTimeout generateContent parseBlueprint
    text preferredStyle w = (Rejected e, w', tr) ->
  exists msg, formatErrorMessage e = Some msg.
Proof.
  unfold analyzeDocument. intros H. apply formatErrorMessage_defined.
  eapply withRetry_rejection_serialisable; [reflexivity | exact H].
Qed.

Lemma generateCardHTML_rejection (b : DesignBlueprint) (i : Z) (w w' : W)
    (e : JsValue) (tr : list (RetryEvent GenRequest)) :
  generateCardHTML setTimeout generateContent b i w = (Rejected e, w', tr) ->
  exists msg, formatErrorMessage e = Some msg.
Proof.
  unfold generateCardHTML. intros H. apply formatErrorMessage_defined.
  eapply withRetry_rejection_serialisable; [reflexivity | exact H].
Qed.

(** The events of an analysis do not depend on the workflow state. *)
Lemma handleAnalyze_events (st : AppState) (w : W) :
  events (handleAnalyze setTimeout generateContent parseBlueprint st w) =
  if String.eqb (trim (inputText st)) "" then []
  else snd (analyzeDocument setTimeout generateContent parseBlueprint
              (inputText st) (selectedStyle st) w).
Proof.
  unfold handleAnalyze.
  destruct (String.eqb (trim (inputText st)) ""); [reflexivity|].
  destruct (analyzeDocument _ _ _ _ _ _) as [[[b|err] w'] tr];
    [reflexivity | apply recover_events].
Qed.

End RecoveryFacts.

(** C3: when the analysis fails, [handleAnalyze] ends with the workflow
    state [IDLE], the formatted message stored, and the blueprint and the
    current card as they were (no blueprint is stored, so none is there
    if none was); when the rendering of a card fails,
    [handleGenerateCard] ends with the workflow state [BLUEPRINT_READY],
    the formatted message stored, the blueprint retained and the current
    card as it was.  In both cases no exception escapes the handler and
    the control that starts the same request again is enabled. *)
Theorem generation_failure_recovers
    {W : Type} (setTimeout : Z -> W -> W)
    (generateContent : GenRequest -> W -> Result (option string) * W)
    (parseBlueprint : string -> option DesignBlueprint)
    (st : AppState) (w : W) :
  (forall e w' tr,
     String.eqb (trim (inputText st)) "" = false ->
     analyzeDocument setTimeout generateContent parseBlueprint
       (inputText st) (selectedStyle st) w = (Rejected e, w', tr) ->
     exists msg,
       let r := handleAnalyze setTimeout generateContent parseBlueprint st w in
       formatErrorMessage e = Some msg
       /\ workflow (final r) = IDLE
       /\ error (final r) = Some msg
       /\ blueprint (final r) = blueprint st
       /\ (blueprint st = None -> blueprint (final r) = None)
       /\ currentCard (final r) = currentCard st
       /\ uncaught r = None
       /\ enabled (final r) AnalyzeButton = true)
  /\
  (forall b i e w' tr,
     blueprint st = Some b ->
     generateCardHTML setTimeout generateContent b i w = (Rejected e, w', tr) ->
     exists msg,
       let r := handleGenerateCard setTimeout generateContent st i w in
       formatErrorMessage e = Some msg
       /\ workflow (final r) = BLUEPRINT_READY
       /\ error (final r) = Some msg
       /\ blueprint (final r) = Some b
       /\ currentCard (final r) = currentCard st
       /\ uncaught r = None
       /\ (forall k, (k < List.length (cardOutlines b))%nat ->
                     enabled (final r) (OutlineButton k) = true)).
Proof.
  split.
  - intros e w' tr Hne Hrej.
    destruct (analyzeDocument_rejection _ _ _ _ _ _ _ _ _ Hrej) as [msg Hmsg].
    exists msg. unfold handleAnalyze. rewrite Hne, Hrej.
    unfold recover. rewrite Hmsg. simpl.
    repeat split; auto. unfold enabled, showsForm. simpl. now rewrite Hne.
  - intros b i e w' tr Hb Hrej.
    destruct (generateCardHTML_rejection _ _ _ _ _ _ _ _ Hrej) as [msg Hmsg].
    exists msg. unfold handleGenerateCard. rewrite Hb, Hrej.
    unfold recover. rewrite Hmsg. simpl.
    repeat split; auto.
    intros k Hk. unfold enabled, showsForm. simpl.
    rewrite Hb. apply Nat.ltb_lt in Hk. now rewrite Hk.
Qed.

Lemma generation_failure_recovers_witness :
  (exists msg,
     let r := handleAnalyze Demo.noTimer
                (Demo.scripted [] (Rejected (TypeError "fetch failed")))
                Demo.noParse (setInputText "some text" initialState) 0%nat in
     formatErrorMessage (TypeError "fetch failed") = Some msg
     /\ workflow (final r) = IDLE
     /\ error (final r) = Some msg
     /\ blueprint (final r) = None
     /\ (@None DesignBlueprint = None -> blueprint (final r) = None)
     /\ currentCard (final r) = None
     /\ uncaught r = None
     /\ enabled (final r) AnalyzeButton = true)
  /\
  (exists msg,
     let r := handleGenerateCard Demo.noTimer
                (Demo.scripted [] (Rejected Demo.quotaError))
                Demo.shown 1 0%nat in
     formatErrorMessage Demo.quotaError = Some msg
     /\ workflow (final r) = BLUEPRINT_READY
     /\ error (final r) = Some msg
     /\ blueprint (final r) = Some Demo.twoCards
     /\ currentCard (final r) = currentCard Demo.shown
     /\ uncaught r = None
     /\ (forall k, (k < List.length (cardOutlines Demo.twoCards))%nat ->
                   enabled (final r) (OutlineButton k) = true)).
Proof.
  split.
  - apply (proj1 (generation_failure_recovers Demo.noTimer
                    (Demo.scripted [] (Rejected (TypeError "fetch failed")))
                    Demo.noParse (setInputText "some text" initialState)
                    0%nat)
             (TypeError "fetch failed") 1%nat
             (snd (analyzeDocument Demo.noTimer
                     (Demo.scripted [] (Rejected (TypeError "fetch failed")))
                     Demo.noParse "some text" "Auto" 0%nat))).
    + reflexivity.
    + reflexivity.
  - apply (proj2 (generation_failure_recovers Demo.noTimer
                    (Demo.scripted [] (Rejected Demo.quotaError))
                    Demo.noParse Demo.shown 0%nat)
             Demo.twoCards 1%Z Demo.quotaError 4%nat
             (snd (generateCardHTML Demo.noTimer
                     (Demo.scripted [] (Rejected Demo.quotaError))
                     Demo.twoCards 1 0%nat))).
    + reflexivity.
    + reflexivity.
Defined.

(** C5, as stated, fails: the handlers do not look at the workflow
    state.  Invoked while a card is being generated, [handleGenerateCard]
    calls the renderer and sends a request; invoked while an analysis is
    running, [handleAnalyze] sends an analysis request. *)
Lemma busy_handlers_send_requests :
  workflow Demo.rendering = GENERATING_CARD
  /\ events (handleGenerateCard Demo.noTimer
               (Demo.scripted [] (Resolved (Some "<p>1</p>")))
               Demo.rendering 0 0%nat)
     = [Attempt;
        Inner (renderRequest Demo.twoCards 0 (Demo.outline "Cover"))]
  /\ workflow Demo.analysing = ANALYZING
  /\ exists request,
       events (handleAnalyze Demo.noTimer
                 (Demo.scripted [] (Resolved (Some "{}"))) Demo.noParse
                 Demo.analysing 0%nat)
       = [Attempt; Inner request].
Proof.
  split; [reflexivity|]. split; [reflexivity|]. split; [reflexivity|].
  eexists. reflexivity.
Qed.

(** C5, amended: the guard is in the view.  While the workflow state is
    [GENERATING_CARD] the only enabled control among those wired to the
    handlers is the reset button; while it is [ANALYZING] the analyse
    button and the outline buttons cannot be clicked; and in
    [GENERATING_CARD], or in [ANALYZING] with no blueprint stored,
    clicking an enabled control attempts nothing, sends nothing and
    leaves the world as it was.  The handlers themselves send the same
    requests whatever the workflow state is. *)
Theorem busy_view_starts_no_request
    {W : Type} (setTimeout : Z -> W -> W)
    (generateContent : GenRequest -> W -> Result (option string) * W)
    (parseBlueprint : string -> option DesignBlueprint)
    (st : AppState) (w : W) :
  (workflow st = GENERATING_CARD ->
   forall c, enabled st c = true -> c = ResetButton)
  /\
  (workflow st = ANALYZING ->
   enabled st AnalyzeButton = false
   /\ forall idx, enabled st (OutlineButton idx) = false)
  /\
  (workflow st = GENERATING_CARD
   \/ (workflow st = ANALYZING /\ blueprint st = None) ->
   forall c, enabled st c = true ->
     events (click setTimeout generateContent parseBlueprint c st w) = []
     /\ world (click setTimeout generateContent parseBlueprint c st w) = w)
  /\
  (forall v i,
     events (handleGenerateCard setTimeout generateContent
               (setWorkflow v st) i w)
     = events (handleGenerateCard setTimeout generateContent st i w))
  /\
  (forall v,
     events (handleAnalyze setTimeout generateContent parseBlueprint
               (setWorkflow v st) w)
     = events (handleAnalyze setTimeout generateContent parseBlueprint st w)).
Proof.
  assert (Hgen : workflow st = GENERATING_CARD ->
                 forall c, enabled st c = true -> c = ResetButton).
  { intros Hw c. unfold enabled, showsForm, showsPanel. rewrite Hw.
    destruct c; simpl; rewrite ?andb_false_r; try discriminate.
    reflexivity. }
  split; [exact Hgen|]. split; [|split; [|split]].
  - intros Hw. unfold enabled, showsForm. rewrite Hw. simpl. auto.
  - intros [Hw | [Hw Hb]] c Hc.
    + rewrite (Hgen Hw c Hc). split; reflexivity.
    + unfold enabled, showsForm, showsPanel in Hc. rewrite Hw, Hb in Hc.
      destruct c; simpl in Hc; try discriminate.
      * destruct (currentCard st); discriminate.
      * unfold click, handleNext. rewrite Hb. split; reflexivity.
      * split; reflexivity.
  - intros v i. unfold handleGenerateCard. simpl.
    destruct (blueprint st) as [b|]; [|reflexivity].
    destruct (generateCardHTML setTimeout generateContent b i w)
      as [[[html|err] w'] tr].
    + destruct (at_index (cardOutlines b) i);
        [reflexivity | now rewrite !recover_events].
    + now rewrite !recover_events.
  - intros v. now rewrite !handleAnalyze_events.
Qed.

Lemma busy_view_starts_no_request_witness :
  (forall c, enabled Demo.rendering c = true -> c = ResetButton)
  /\ (enabled Demo.analysing AnalyzeButton = false
      /\ forall idx, enabled Demo.analysing (OutlineButton idx) = false)
  /\ (events (click Demo.noTimer
                (Demo.scripted [] (Resolved (Some "<p>1</p>"))) Demo.noParse
                ResetButton Demo.rendering 0%nat) = []
      /\ world (click Demo.noTimer
                  (Demo.scripted [] (Resolved (Some "<p>1</p>"))) Demo.noParse
                  ResetButton Demo.rendering 0%nat) = 0%nat).
Proof.
  pose proof (busy_view_starts_no_request Demo.noTimer
                (Demo.scripted [] (Resolved (Some "<p>1</p>"))) Demo.noParse
                Demo.rendering 0%nat) as (Hgen & _ & Hbusy & _).
  pose proof (busy_view_starts_no_request Demo.noTimer
                (Demo.scripted [] (Resolved (Some "<p>1</p>"))) Demo.noParse
                Demo.analysing 0%nat) as (_ & Han & _).
  split; [|split].
  - apply Hgen. reflexivity.
  - apply Han. reflexivity.
  - apply Hbusy.
    + left. reflexivity.
    + reflexivity.
Defined.

(* ===================================================================== *)
(** * Properties of the export pipeline                                    *)
(* ===================================================================== *)

(** C8: the filter answers [false] exactly for a [LINK] element that has
    a style sheet whose rule list throws when read, and [true] for every
    other node; in particular for every node that is not a [LINK]
    element. *)
Theorem filter_rejects_exactly_unreadable_links (node : Node) :
  (filter node = false <->
   tagName node = Some "LINK"
   /\ exists sh e, sheet node = Some sh /\ cssRules sh = Throws e)
  /\ (tagName node <> Some "LINK" -> filter node = true).
Proof.
  unfold filter. split; [split|].
  - destruct (tagName node) as [tag|]; [|discriminate].
    destruct (String.eqb tag "LINK") eqn:Etag; [|discriminate].
    apply String.eqb_eq in Etag. subst tag.
    destruct (sheet node) as [sh|]; [|discriminate].
    destruct (cssRules sh) as [rules|e] eqn:Erules; [discriminate|].
    intros _. split; [reflexivity|]. eauto.
  - intros (-> & sh & e & -> & ->). reflexivity.
  - destruct (tagName node) as [tag|]; [|reflexivity].
    destruct (String.eqb tag "LINK") eqn:Etag; [|reflexivity].
    apply String.eqb_eq in Etag. subst tag. congruence.
Qed.

Lemma filter_rejects_exactly_unreadable_links_witness :
  filter {| tagName := Some "LINK";
            sheet := Some {| cssRules :=
                               Throws (nativeError "SecurityError"
                                         "Cannot access rules") |} |}
  = false
  /\ filter {| tagName := Some "DIV"; sheet := None |} = true.
Proof.
  split.
  - apply (proj1 (filter_rejects_exactly_unreadable_links
                    {| tagName := Some "LINK";
                       sheet := Some {| cssRules :=
                                          Throws (nativeError "SecurityError"
                                                    "Cannot access rules") |}
                    |})).
    split; [reflexivity|]. eexists. eexists. split; reflexivity.
  - apply (proj2 (filter_rejects_exactly_unreadable_links
                    {| tagName := Some "DIV"; sheet := None |})).
    discriminate.
Defined.

Lemma sanitize_length (t : string) :
  String.length (sanitize t) = String.length t.
Proof. induction t as [|c t IH]; simpl; auto. Qed.

Lemma sanitize_get (t : string) (i : nat) :
  String.get i (sanitize t) =
  option_map (fun c => if unsafeChar c then "_"%char else c) (String.get i t).
Proof.
  revert i; induction t as [|c t IH]; intros [|i]; simpl; auto.
Qed.

Lemma sanitize_safe (t : string) (c : ascii) :
  In c (list_ascii_of_string (sanitize t)) -> unsafeChar c = false.
Proof.
  induction t as [|d t IH]; simpl; [contradiction|].
  intros [<- | H]; [|auto].
  destruct (unsafeChar d) eqn:E; [reflexivity | exact E].
Qed.

(** C9, as stated, fails: the name of the downloaded file is not the
    sanitised title followed by [.png]; a fixed prefix comes first. *)
Lemma download_name_has_prefix :
  downloadAsImage Demo.png (Some (Some Demo.page)) Demo.shown
  = (Demo.shown,
     [Download "知识卡-Q&A_ what_why_.png" "data:image/png;base64,iVBORw0KGgo="],
     None)
  /\ sanitize "Q&A: what/why?" = "Q&A_ what_why_"
  /\ "知识卡-Q&A_ what_why_.png"
     <> (sanitize "Q&A: what/why?" ++ ".png")%string.
Proof.
  split; [reflexivity|]. split; [reflexivity|]. discriminate.
Qed.

(** C9, amended: when the export triggers a download, its file name is
    the fixed prefix, then the title of the current card in which every
    character of the unsafe class is an underscore and every other
    character is kept, then [.png]. *)
Theorem download_name_of_export
    (toPng : Node -> (Node -> bool) -> Result string)
    (iframe : option (option Document)) (st : AppState)
    (name href : string) :
  In (Download name href) (snd (fst (downloadAsImage toPng iframe st))) ->
  exists card,
    currentCard st = Some card
    /\ name = ("知识卡-" ++ sanitize (cardTitle card) ++ ".png")%string
    /\ String.length (sanitize (cardTitle card))
       = String.length (cardTitle card)
    /\ (forall i,
          String.get i (sanitize (cardTitle card)) =
          option_map (fun c => if unsafeChar c then "_"%char else c)
            (String.get i (cardTitle card)))
    /\ (forall c, In c (list_ascii_of_string (sanitize (cardTitle card))) ->
                  unsafeChar c = false).
Proof.
  unfold downloadAsImage.
  destruct iframe as [iframeDoc|]; [|contradiction].
  destruct (currentCard st) as [card|]; [|contradiction].
  intros H. exists card. split; [reflexivity|].
  split; [|split; [apply sanitize_length|
                   split; [apply sanitize_get | apply sanitize_safe]]].
  assert (Hcatch : forall err,
             ~ In (Download name href)
                 (snd (fst (match isSecurityError err with
                            | Reads true =>
                                (setIsDownloading false
                                   (setIsDownloading true st),
                                 [Alert corsAlert], @None JsValue)
                            | Reads false =>
                                (setIsDownloading false
                                   (setIsDownloading true st),
                                 [Alert exportAlert], None)
                            | Throws e =>
                                (setIsDownloading false
                                   (setIsDownloading true st), [], Some e)
                            end)))).
  { intros err. destruct (isSecurityError err) as [[|]|]; simpl;
      intuition discriminate. }
  destruct iframeDoc as [doc|]; [|now apply Hcatch in H].
  destruct (match cardContainer doc with
            | Some n => Some n
            | None => docBody doc
            end) as [container|]; [|now apply Hcatch in H].
  destruct (toPng container filter) as [dataUrl|e];
    [|now apply Hcatch in H].
  simpl in H. destruct H as [[= <- _] | []]. reflexivity.
Qed.

Lemma download_name_of_export_witness :
  exists card,
    currentCard Demo.shown = Some card
    /\ "知识卡-Q&A_ what_why_.png"
       = ("知识卡-" ++ sanitize (cardTitle card) ++ ".png")%string
    /\ String.length (sanitize (cardTitle card))
       = String.length (cardTitle card)
    /\ (forall i,
          String.get i (sanitize (cardTitle card)) =
          option_map (fun c => if unsafeChar c then "_"%char else c)
            (String.get i (cardTitle card)))
    /\ (forall c, In c (list_ascii_of_string (sanitize (cardTitle card))) ->
                  unsafeChar c = false).
Proof.
  apply (download_name_of_export Demo.png (Some (Some Demo.page)) Demo.shown
           "知识卡-Q&A_ what_why_.png" "data:image/png;base64,iVBORw0KGgo=").
  simpl. left. reflexivity.
Defined.

(* ===================================================================== *)
(** * Further properties of the retry executor                             *)
(* ===================================================================== *)

Section RetryShape.

Context {W F T : Type}.
Variable setTimeout : Z -> W -> W.

Lemma backoff_0 (delay : Z) : backoff 0 delay = [].
Proof. reflexivity. Qed.

(** The shape of every trace of the executor. *)
Lemma withRetry_shape (fn : @Async W F T) (n : nat) :
  forall (retries delay : Z) (w : W),
    Z.to_nat retries = n ->
    exists m,
      attempts (snd (withRetry setTimeout fn retries delay w)) = S m
      /\ (m <= n)%nat
      /\ waits (snd (withRetry setTimeout fn retries delay w))
         = backoff m delay
      /\ schedule (snd (withRetry setTimeout fn retries delay w))
         = Attempt :: flat_map (fun d => [Wait d; Attempt]) (backoff m delay).
Proof.
  assert (Hstop : forall (r : Result T) (w1 : W) (tr0 : list F) k delay,
             exists m,
               attempts (snd (r, w1, Attempt :: List.map Inner tr0)) = S m
               /\ (m <= k)%nat
               /\ waits (snd (r, w1, Attempt :: List.map Inner tr0))
                  = backoff m delay
               /\ schedule (snd (r, w1, Attempt :: List.map Inner tr0))
                  = Attempt
                      :: flat_map (fun d => [Wait d; Attempt])
                           (backoff m delay)).
  { intros r w1 tr0 k delay. exists 0%nat. simpl.
    rewrite attempts_Inner, waits_Inner, schedule_Inner.
    repeat split; try reflexivity; lia. }
  induction n as [|n IH]; intros retries delay w Hn;
    rewrite withRetry_body;
    destruct (fn w) as [[[v|error] w1] tr0]; try apply Hstop;
    (destruct (isRateLimit error) as [rl|]; [|apply Hstop]).
  - replace (0 <? retries)%Z with false by (symmetry; apply Z.ltb_ge; lia).
    apply Hstop.
  - destruct ((0 <? retries)%Z && rl) eqn:Hgo; [|apply Hstop].
    apply andb_true_iff in Hgo as [Hpos _]. apply Z.ltb_lt in Hpos.
    destruct (IH (retries - 1)%Z (delay * 2)%Z (setTimeout delay w1))
      as (m & Ha & Hm & Hw & Hs); [lia|].
    destruct (withRetry setTimeout fn (retries - 1) (delay * 2)
                (setTimeout delay w1)) as [[r w2] tr2].
    rewrite after_eq. simpl in Ha, Hw, Hs |- *.
    exists (S m). rewrite backoff_S.
    rewrite !attempts_app, !waits_app, !schedule_app.
    rewrite attempts_Inner, waits_Inner, schedule_Inner.
    simpl. rewrite Ha, Hw, Hs. repeat split; (reflexivity || lia).
Qed.

(** [k] rate-limited failures and then an answer, within the budget. *)
Lemma withRetry_recovers (fn : @Async W F T) (k : nat) :
  forall (retries delay : Z) (w : W) (v : T),
    (k <= Z.to_nat retries)%nat ->
    (forall j, (j < k)%nat ->
       exists e,
         fst (fst (fn (attemptWorld setTimeout fn delay w j))) = Rejected e
         /\ isRateLimit e = Some true) ->
    fst (fst (fn (attemptWorld setTimeout fn delay w k))) = Resolved v ->
    exists tr,
      withRetry setTimeout fn retries delay w =
        (Resolved v,
         snd (fst (fn (attemptWorld setTimeout fn delay w k))), tr)
      /\ attempts tr = S k
      /\ waits tr = backoff k delay.
Proof.
  induction k as [|k IH]; intros retries delay w v Hk Hfail Hok;
    rewrite withRetry_body.
  - simpl in Hok |- *. destruct (fn w) as [[r w1] tr0]. simpl in Hok.
    subst r. eexists. split; [reflexivity|]. simpl.
    now rewrite attempts_Inner, waits_Inner.
  - destruct (Hfail 0%nat (Nat.lt_0_succ _)) as (e & He & Hc).
    simpl in He, Hok |- *.
    destruct (fn w) as [[r w1] tr0] eqn:Hfn. simpl in He, Hok |- *. subst r.
    rewrite Hc.
    replace (0 <? retries)%Z with true by (symmetry; apply Z.ltb_lt; lia).
    simpl andb. cbv iota.
    destruct (IH (retries - 1)%Z (delay * 2)%Z (setTimeout delay w1) v)
      as (tr & Heq & Ha & Hw); [lia | | exact Hok |].
    + intros j Hj. destruct (Hfail (S j)) as (e' & He' & Hc'); [lia|].
      simpl in He'. rewrite Hfn in He'. simpl in He'. eauto.
    + rewrite backoff_S. rewrite Heq, after_eq.
      eexists. split; [reflexivity|]. simpl.
      rewrite !attempts_app, !waits_app.
      rewrite attempts_Inner, waits_Inner.
      simpl. now rewrite Ha, Hw.
Qed.

Lemma inner_app (a b : list (RetryEvent F)) :
  inner (a ++ b) = inner a ++ inner b.
Proof.
  induction a as [|[| |] a IH]; simpl; auto. now rewrite IH.
Qed.

(** The effects of the wrapped operation in the trace, when every call
    of the operation performs the same effects [l]. *)
Lemma withRetry_inner (fn : @Async W F T) (l : list F) (n : nat) :
  (forall w, snd (fn w) = l) ->
  forall (retries delay : Z) (w : W),
    Z.to_nat retries = n ->
    inner (snd (withRetry setTimeout fn retries delay w))
    = List.concat
        (repeat l (attempts (snd (withRetry setTimeout fn retries delay w)))).
Proof.
  intros Hl.
  assert (Hstop : forall (r : Result T) (w1 : W),
             inner (snd (r, w1, Attempt :: List.map Inner l))
             = List.concat
                 (repeat l
                    (attempts (snd (r, w1, Attempt :: List.map Inner l))))).
  { intros r w1. simpl. rewrite attempts_Inner, inner_Inner. simpl.
    now rewrite app_nil_r. }
  induction n as [|n IH]; intros retries delay w Hn;
    rewrite withRetry_body; specialize (Hl w) as Hw;
    destruct (fn w) as [[[v|error] w1] tr0]; simpl in Hw; subst tr0;
    try apply Hstop;
    (destruct (isRateLimit error) as [rl|]; [|apply Hstop]).
  - replace (0 <? retries)%Z with false by (symmetry; apply Z.ltb_ge; lia).
    apply Hstop.
  - destruct ((0 <? retries)%Z && rl) eqn:Hgo; [|apply Hstop].
    apply andb_true_iff in Hgo as [Hpos _]. apply Z.ltb_lt in Hpos.
    specialize (IH (retries - 1)%Z (delay * 2)%Z (setTimeout delay w1)).
    destruct (withRetry setTimeout fn (retries - 1) (delay * 2)
                (setTimeout delay w1)) as [[r w2] tr2].
    rewrite after_eq. simpl in IH |- *.
    rewrite !attempts_app, !inner_app, attempts_Inner, inner_Inner.
    simpl. rewrite IH by lia. now rewrite app_nil_r.
Qed.

End RetryShape.

(** X1: whatever the wrapped operation does, [withRetry] calls it at
    least once and at most [retries + 1] times (once when [retries] is
    zero or negative), sets exactly one timer between two consecutive
    calls and none after the last, and the timers are [delay],
    [delay*2], [delay*4], ... in this order. *)
Theorem withRetry_never_exceeds_budget
    {W F T : Type} (setTimeout : Z -> W -> W) (fn : @Async W F T)
    (retries delay : Z) (w : W) :
  let tr := snd (withRetry setTimeout fn retries delay w) in
  (1 <= attempts tr <= Z.to_nat retries + 1)%nat
  /\ waits tr = backoff (attempts tr - 1) delay
  /\ schedule tr = Attempt :: flat_map (fun d => [Wait d; Attempt]) (waits tr).
Proof.
  intros tr. subst tr.
  destruct (withRetry_shape setTimeout fn (Z.to_nat retries)
              retries delay w eq_refl) as (m & Ha & Hm & Hw & Hs).
  rewrite Ha, Hw, Hs. replace (S m - 1)%nat with m by lia.
  repeat split; (reflexivity || lia).
Qed.

(** X2: when the first [k] attempts fail with rate-limit-classified
    errors that have a JSON form, attempt [k] succeeds and [k] is within
    the budget, [withRetry] resolves with the value of that attempt after
    [k + 1] calls and the timers [delay], ..., [delay * 2^(k-1)]. *)
Theorem withRetry_recovers_within_budget
    {W F T : Type} (setTimeout : Z -> W -> W) (fn : @Async W F T)
    (retries delay : Z) (w : W) (k : nat) (v : T) :
  (k <= Z.to_nat retries)%nat ->
  (forall j, (j < k)%nat ->
     exists e,
       fst (fst (fn (attemptWorld setTimeout fn delay w j))) = Rejected e
       /\ RateLimitClassified e
       /\ exists str, stringify e = Some str) ->
  fst (fst (fn (attemptWorld setTimeout fn delay w k))) = Resolved v ->
  exists tr,
    withRetry setTimeout fn retries delay w =
      (Resolved v, snd (fst (fn (attemptWorld setTimeout fn delay w k))), tr)
    /\ attempts tr = S k
    /\ waits tr = backoff k delay.
Proof.
  intros Hk Hfail Hok.
  apply (withRetry_recovers setTimeout fn k retries delay w v Hk);
    [|exact Hok].
  intros j Hj. destruct (Hfail j Hj) as (e & He & Hc & str & Hs).
  exists e. split; [exact He|]. exact (classified_isRateLimit e str Hs Hc).
Qed.

Lemma withRetry_recovers_within_budget_witness :
  exists tr,
    withRetry Demo.noTimer Sample.flaky 3 3000 0%nat =
      (Resolved "done",
       snd (fst (Sample.flaky
                   (attemptWorld Demo.noTimer Sample.flaky 3000 0%nat 2))),
       tr)
    /\ attempts tr = 3%nat
    /\ waits tr = backoff 2 3000.
Proof.
  apply (withRetry_recovers_within_budget Demo.noTimer Sample.flaky
           3 3000 0%nat 2 "done").
  - simpl. lia.
  - intros j Hj. exists Demo.quotaError. split; [|split].
    + destruct j as [|[|j]]; [reflexivity | reflexivity | lia].
    + right; left. reflexivity.
    + eexists. reflexivity.
  - reflexivity.
Defined.

(** X22: when every attempt of the wrapped operation fails with a
    rate-limit-classified error that has a JSON form,
    [withRetry fn retries delay] calls the operation exactly
    [retries + 1] times, waits [delay], [delay*2], [delay*4], ...
    between consecutive calls (one timer between each two calls and none
    after the last), and rejects with the error of the last attempt. *)
Theorem withRetry_serialisable_rate_limit_exhausts_budget
    {W F T : Type} (setTimeout : Z -> W -> W) (fn : @Async W F T)
    (retries delay : Z) (w : W) :
  (0 <= retries)%Z ->
  (forall k, (k <= Z.to_nat retries)%nat ->
     exists e,
       fst (fst (fn (attemptWorld setTimeout fn delay w k))) = Rejected e
       /\ RateLimitClassified e
       /\ exists str, stringify e = Some str) ->
  exists (e : JsValue) (w' : W) (tr : list (RetryEvent F)),
    withRetry setTimeout fn retries delay w = (Rejected e, w', tr)
    /\ fst (fn (attemptWorld setTimeout fn delay w (Z.to_nat retries)))
       = (Rejected e, w')
    /\ Z.of_nat (attempts tr) = (retries + 1)%Z
    /\ waits tr = backoff (Z.to_nat retries) delay
    /\ schedule tr = Attempt :: flat_map (fun d => [Wait d; Attempt]) (waits tr).
Proof.
  intros Hpos Hall.
  destruct (withRetry_exhausts setTimeout fn (Z.to_nat retries)
              retries delay w eq_refl Hpos)
    as (tr & Heq & Ha & Hw & Hs).
  { intros k Hk. destruct (Hall k Hk) as (e & He & Hc & str & Hstr).
    exists e. split; [exact He|].
    exact (classified_isRateLimit e str Hstr Hc). }
  destruct (Hall (Z.to_nat retries) (Nat.le_refl _)) as (e & He & _).
  destruct (fn (attemptWorld setTimeout fn delay w (Z.to_nat retries)))
    as [[r w'] tr0] eqn:Hlast.
  simpl in He, Heq. subst r.
  exists e, w', tr. repeat split; auto.
  - rewrite Ha. lia.
  - now rewrite Hw.
Qed.

Lemma withRetry_serialisable_rate_limit_exhausts_budget_witness :
  exists (e : JsValue) (w' : nat) (tr : list (RetryEvent unit)),
    withRetry Demo.noTimer Demo.alwaysQuota 3 3000 0%nat = (Rejected e, w', tr)
    /\ fst (Demo.alwaysQuota
              (attemptWorld Demo.noTimer Demo.alwaysQuota 3000 0%nat
                 (Z.to_nat 3)))
       = (Rejected e, w')
    /\ Z.of_nat (attempts tr) = (3 + 1)%Z
    /\ waits tr = backoff (Z.to_nat 3) 3000
    /\ schedule tr = Attempt :: flat_map (fun d => [Wait d; Attempt]) (waits tr).
Proof.
  apply (withRetry_serialisable_rate_limit_exhausts_budget
           Demo.noTimer Demo.alwaysQuota 3 3000 0%nat).
  - lia.
  - intros k _. exists Demo.quotaError. split; [|split].
    + reflexivity.
    + right; left. reflexivity.
    + eexists. reflexivity.
Defined.

Lemma isRateLimit_nativeError (name message : string) :
  isRateLimit (nativeError name message) = Some false.
Proof. reflexivity. Qed.

(** X3: an instance of a built-in error class that has no enumerable
    field of its own is never retried, whatever its message says: its
    serialised form is [{}] since [name], [message] and [stack] are not
    enumerable.  The executor calls the operation once, sets no timer and
    rejects with that error, and the message shown for it is the generic
    one. *)
Theorem withRetry_native_error_not_retried
    {W F T : Type} (setTimeout : Z -> W -> W) (fn : @Async W F T)
    (retries delay : Z) (w w1 : W) (name message : string) (tr : list F) :
  fn w = (Rejected (nativeError name message), w1, tr) ->
  withRetry setTimeout fn retries delay w =
    (Rejected (nativeError name message), w1, Attempt :: List.map Inner tr)
  /\ stringify (nativeError name message) = Some "{}"
  /\ ~ RateLimitClassified (nativeError name message)
  /\ formatErrorMessage (nativeError name message) = Some genericMessage.
Proof.
  intros Hfn. split; [|split; [reflexivity | split; [|reflexivity]]].
  - exact (withRetry_unclassified setTimeout fn retries delay w w1 _ tr
             Hfn (isRateLimit_nativeError name message)).
  - exact (isRateLimit_unclassified _ (isRateLimit_nativeError name message)).
Qed.

Lemma withRetry_native_error_not_retried_witness :
  withRetry Demo.noTimer Sample.alwaysQuotaMessage 3 3000 0%nat =
    (Rejected Sample.quotaInMessage, 1%nat, [Attempt; Inner tt])
  /\ stringify Sample.quotaInMessage = Some "{}"
  /\ ~ RateLimitClassified Sample.quotaInMessage
  /\ formatErrorMessage Sample.quotaInMessage = Some genericMessage.
Proof.
  apply (withRetry_native_error_not_retried Demo.noTimer
           Sample.alwaysQuotaMessage 3 3000 0%nat 1%nat
           "Error" "429 Too Many Requests: quota exceeded" [tt]).
  reflexivity.
Defined.

(* ===================================================================== *)
(** * Further properties of the generation service                         *)
(* ===================================================================== *)

Lemma concat_repeat_singleton {A : Type} (x : A) (n : nat) :
  List.concat (repeat [x] n) = repeat x n.
Proof. induction n as [|n IH]; simpl; [reflexivity | now rewrite IH]. Qed.

Lemma backoff_default (m : nat) :
  (m <= 3)%nat -> backoff m 3000 = firstn m [3000; 6000; 12000]%Z.
Proof.
  intros H. destruct m as [|[|[|[|m]]]]; try reflexivity. lia.
Qed.

Section ServiceFacts.

Context {W : Type}.
Variable setTimeout : Z -> W -> W.
Variable generateContent : GenRequest -> W -> Result (option string) * W.
Variable parseBlueprint : string -> option DesignBlueprint.

(** With the default budget: at most four calls, and the timers are a
    prefix of 3000, 6000, 12000. *)
Lemma default_budget {F T : Type} (fn : @Async W F T) (w : W) :
  let tr := snd (withRetry setTimeout fn 3 3000 w) in
  (1 <= attempts tr <= 4)%nat
  /\ waits tr = firstn (attempts tr - 1) [3000; 6000; 12000]%Z.
Proof.
  intros tr. subst tr.
  destruct (withRetry_shape setTimeout fn 3 3 3000 w eq_refl)
    as (m & Ha & Hm & Hw & _).
  rewrite Ha, Hw. replace (S m - 1)%nat with m by lia.
  split; [lia | now apply backoff_default].
Qed.

End ServiceFacts.

(** X4: one call of [analyzeDocument] sends the same request at every
    attempt, the text being the one passed in, as many times as the
    operation is attempted: at least once and at most four times, with
    the timers 3000, 6000, 12000 between the attempts. *)
Theorem analyzeDocument_requests
    {W : Type} (setTimeout : Z -> W -> W)
    (generateContent : GenRequest -> W -> Result (option string) * W)
    (parseBlueprint : string -> option DesignBlueprint)
    (text preferredStyle : string) (w : W) :
  let tr := snd (analyzeDocument setTimeout generateContent parseBlueprint
                   text preferredStyle w) in
  inner tr = repeat (analysisRequest text preferredStyle) (attempts tr)
  /\ (1 <= attempts tr <= 4)%nat
  /\ waits tr = firstn (attempts tr - 1) [3000; 6000; 12000]%Z.
Proof.
  intros tr. subst tr. unfold analyzeDocument. split.
  - rewrite (withRetry_inner setTimeout _
               [analysisRequest text preferredStyle] 3);
      [apply concat_repeat_singleton | | reflexivity].
    intros w0. cbv beta zeta. fold (analysisRequest text preferredStyle).
    destruct (generateContent (analysisRequest text preferredStyle) w0)
      as [[response|e] w1]; [|reflexivity].
    destruct (match response with
              | Some t => parseBlueprint t
              | None => None
              end); reflexivity.
  - apply default_budget.
Qed.

(** X5: for an index that has an outline, one call of
    [generateCardHTML] sends the request built from that outline at
    every attempt: at least once and at most four times, with the timers
    3000, 6000, 12000 between the attempts. *)
Theorem generateCardHTML_requests
    {W : Type} (setTimeout : Z -> W -> W)
    (generateContent : GenRequest -> W -> Result (option string) * W)
    (b : DesignBlueprint) (i : Z) (card : CardOutline) (w : W) :
  at_index (cardOutlines b) i = Some card ->
  let tr := snd (generateCardHTML setTimeout generateContent b i w) in
  inner tr = repeat (renderRequest b i card) (attempts tr)
  /\ (1 <= attempts tr <= 4)%nat
  /\ waits tr = firstn (attempts tr - 1) [3000; 6000; 12000]%Z.
Proof.
  intros Hcard tr. subst tr. unfold generateCardHTML. split.
  - rewrite (withRetry_inner setTimeout _ [renderRequest b i card] 3);
      [apply concat_repeat_singleton | | reflexivity].
    intros w0. cbv beta zeta. rewrite Hcard.
    fold (renderRequest b i card).
    destruct (generateContent (renderRequest b i card) w0)
      as [[[text|]|e] w1]; try reflexivity.
    destruct (extractHtml text); reflexivity.
  - apply default_budget.
Qed.

Lemma generateCardHTML_requests_witness :
  let tr := snd (generateCardHTML Demo.noTimer
                   (Demo.scripted [Rejected Demo.quotaError]
                      (Resolved (Some "<p>2</p>")))
                   Demo.twoCards 1 0%nat) in
  inner tr = repeat (renderRequest Demo.twoCards 1 (Demo.outline "Details"))
               (attempts tr)
  /\ (1 <= attempts tr <= 4)%nat
  /\ waits tr = firstn (attempts tr - 1) [3000; 6000; 12000]%Z.
Proof.
  apply (generateCardHTML_requests Demo.noTimer
           (Demo.scripted [Rejected Demo.quotaError]
              (Resolved (Some "<p>2</p>")))
           Demo.twoCards 1 (Demo.outline "Details") 0%nat).
  reflexivity.
Defined.

(** ** The extraction of the markup *)

Section SubstringFacts.

Local Open Scope string_scope.

Lemma take_drop (k : nat) (s : string) : take k s ++ drop k s = s.
Proof.
  revert s; induction k as [|k IH]; intros [|c s]; simpl; try reflexivity.
  now rewrite IH.
Qed.

Lemma length_take (k : nat) (s : string) :
  (String.length (take k s) <= k)%nat.
Proof.
  revert s; induction k as [|k IH]; intros [|c s]; simpl; try lia.
  specialize (IH s). lia.
Qed.

Lemma length_drop (k : nat) (s : string) :
  String.length (drop k s) = (String.length s - k)%nat.
Proof.
  revert s; induction k as [|k IH]; intros [|c s]; simpl; auto.
Qed.

Lemma drop_all (k : nat) (s : string) :
  (String.length s <= k)%nat -> drop k s = "".
Proof.
  revert s; induction k as [|k IH]; intros [|c s]; simpl; intros H;
    try reflexivity; try lia.
  apply IH. lia.
Qed.

Lemma drop_drop (a b : nat) (s : string) :
  drop a (drop b s) = drop (b + a) s.
Proof.
  revert s; induction b as [|b IH]; intros s; simpl; [reflexivity|].
  destruct s as [|c s]; [now destruct a | apply IH].
Qed.

Lemma drop_app_le (k : nat) (a b : string) :
  (k <= String.length a)%nat -> drop k (a ++ b) = drop k a ++ b.
Proof.
  revert a; induction k as [|k IH]; intros [|c a]; simpl; intros H;
    try reflexivity; try lia.
  apply IH. lia.
Qed.

Lemma startsWith_length (p s : string) :
  startsWith p s = true -> (String.length p <= String.length s)%nat.
Proof.
  revert s; induction p as [|x p IH]; intros [|y s]; simpl;
    try lia; try discriminate.
  intros H. apply andb_true_iff in H as [_ H]. apply IH in H. lia.
Qed.

Lemma indexOf_None_drop (needle s : string) (k : nat) :
  indexOf needle s = None -> indexOf needle (drop k s) = None.
Proof.
  revert s; induction k as [|k IH]; intros s H; [now destruct s|].
  destruct s as [|c s]; [exact H|]. simpl. apply IH.
  cbn [indexOf] in H.
  destruct (startsWith needle (String c s)); [discriminate|].
  now destruct (indexOf needle s).
Qed.

Lemma indexOf_None_take (needle s : string) (k : nat) :
  indexOf needle s = None -> indexOf needle (take k s) = None.
Proof.
  intros H. rewrite <- (take_drop k s) in H.
  exact (indexOf_none_app _ _ _ H).
Qed.

(** The text before the first occurrence of a non-empty needle does not
    contain the needle. *)
Lemma indexOf_before_first (a : ascii) (needle' s : string) (i : nat) :
  indexOf (String a needle') s = Some i ->
  indexOf (String a needle') (take i s) = None.
Proof.
  intros Hi.
  destruct (indexOf (String a needle') (take i s)) as [j|] eqn:Hj;
    [exfalso | reflexivity].
  pose proof (indexOf_occurs _ _ _ Hj) as Hocc.
  pose proof (startsWith_length _ _ Hocc) as Hlen.
  rewrite length_drop in Hlen. simpl in Hlen.
  pose proof (length_take i s) as Hti.
  assert (Hs : startsWith (String a needle') (drop j s) = true).
  { rewrite <- (take_drop i s) at 1.
    rewrite drop_app_le by lia. now apply startsWith_mono. }
  pose proof (indexOf_least _ _ _ _ Hi Hs). lia.
Qed.

Lemma rev_app (a b : string) : rev (a ++ b) = rev b ++ rev a.
Proof.
  assert (Hnil : forall x : string, x ++ "" = x).
  { induction x; simpl; [reflexivity | now f_equal]. }
  assert (Hassoc : forall x y z : string, (x ++ y) ++ z = x ++ (y ++ z)).
  { induction x; intros; simpl; [reflexivity | now f_equal]. }
  induction a as [|c a IH]; simpl; [now rewrite Hnil|].
  now rewrite IH, Hassoc.
Qed.

Lemma rev_involutive (s : string) : rev (rev s) = s.
Proof.
  induction s as [|c s IH]; simpl; [reflexivity|].
  rewrite rev_app. simpl. now rewrite IH.
Qed.

Lemma length_rev (s : string) : String.length (rev s) = String.length s.
Proof.
  induction s as [|c s IH]; simpl; [reflexivity|].
  rewrite length_app. simpl. lia.
Qed.

Lemma rev_drop_rev (k : nat) (s : string) :
  rev (drop k (rev s)) = take (String.length s - k) s.
Proof.
  destruct (Nat.le_gt_cases k (String.length s)) as [Hle | Hgt].
  - rewrite <- (take_drop (String.length s - k) s) at 1.
    rewrite rev_app.
    replace k with (String.length (rev (drop (String.length s - k) s)) + 0)%nat
      at 1 by (rewrite length_rev, length_drop; lia).
    rewrite drop_app.
    assert (H0 : forall x, drop 0 x = x) by (now intros [|]).
    rewrite H0. apply rev_involutive.
  - rewrite drop_all by (rewrite length_rev; lia).
    replace (String.length s - k)%nat with 0%nat by lia.
    now destruct s.
Qed.

Lemma stripOne_drop (ws : list string) (s rest : string) :
  stripOne ws s = Some rest -> exists k, rest = drop k s.
Proof.
  induction ws as [|w ws IH]; simpl; [discriminate|].
  destruct (startsWith w s); [|exact IH].
  intros [= <-]. eauto.
Qed.

Lemma stripAll_drop (fuel : nat) (ws : list string) (s : string) :
  exists k, stripAll fuel ws s = drop k s.
Proof.
  revert s; induction fuel as [|fuel IH]; intros s; simpl.
  - exists 0%nat. now destruct s.
  - destruct (stripOne ws s) as [rest|] eqn:E.
    + destruct (stripOne_drop _ _ _ E) as [k ->].
      destruct (IH (drop k s)) as [k' ->]. rewrite drop_drop. eauto.
    + exists 0%nat. now destruct s.
Qed.

(** [trim] yields a piece of its argument: what is left after dropping a
    prefix and keeping a prefix of the rest. *)
Lemma trim_piece (s : string) : exists k m, trim s = take m (drop k s).
Proof.
  unfold trim, trimStart, trimEnd.
  destruct (stripAll_drop (String.length s) whiteSpace s) as [k ->].
  destruct (stripAll_drop (String.length (drop k s))
              (List.map rev whiteSpace) (rev (drop k s))) as [k' ->].
  rewrite rev_drop_rev. eauto.
Qed.

Lemma trim_without (needle s : string) :
  indexOf needle s = None -> indexOf needle (trim s) = None.
Proof.
  intros H. destruct (trim_piece s) as (k & m & ->).
  now apply indexOf_None_take, indexOf_None_drop.
Qed.

Lemma split_head (a : ascii) (sep' s : string) :
  exists h, nth_error (split (String a sep') s) 0 = Some h
            /\ indexOf (String a sep') h = None.
Proof.
  rewrite split_nth_0.
  destruct (indexOf (String a sep') s) as [i|] eqn:E; eexists;
    (split; [reflexivity|]).
  - now apply indexOf_before_first.
  - exact E.
Qed.

Lemma stripFence_fence_free (text : string) :
  exists h, stripFence text = Some h /\ indexOf "```" h = None.
Proof.
  unfold stripFence, includes.
  destruct (indexOf "```html" text) as [i|] eqn:E1.
  - rewrite (split_nth_1 _ _ _ _ E1).
    destruct (split_head "`" "``html"
                (drop (i + S (String.length "``html")) text))
      as (rest & -> & _).
    apply split_head.
  - destruct (indexOf "```" text) as [i|] eqn:E2.
    + rewrite (split_nth_1 _ _ _ _ E2).
      destruct (split_head "`" "``"
                  (drop (i + S (String.length "``")) text))
        as (rest & -> & _).
      apply split_head.
    + eauto.
Qed.

End SubstringFacts.

(** X6: the extraction of the markup never faults (the [undefined] that
    indexing the result of [split] could yield never arises), and what it
    returns contains no fence, whatever the response text is. *)
Theorem extractHtml_total_and_fence_free (text : string) :
  exists html, extractHtml text = Some html /\ includes html "```" = false.
Proof.
  destruct (stripFence_fence_free text) as (h & Hh & Hfree).
  exists (trim h). unfold extractHtml. rewrite Hh. split; [reflexivity|].
  apply includes_false. now apply trim_without.
Qed.

(* ===================================================================== *)
(** * Further properties of the workflow controller                        *)
(* ===================================================================== *)

Lemma messages_differ : quotaMessage <> genericMessage.
Proof. discriminate. Qed.

Lemma quota_message_classified (e : JsValue) :
  formatErrorMessage e = Some quotaMessage -> isRateLimit e = Some true.
Proof.
  unfold formatErrorMessage, isRateLimit.
  destruct (stringify e) as [str|]; [|discriminate].
  destruct (includes (toLowerCase str) "429"
            || includes (toLowerCase str) "quota") eqn:E.
  - intros _. reflexivity.
  - intros H. exfalso. apply messages_differ. congruence.
Qed.

(** X7: the message shown for a failure and the decision to retry do not
    use the same test.  An error shown with the quota message is always
    one the executor retries; an error the executor retries is shown
    with the quota message unless it is classified by its [status] or
    [code] field alone; and an error whose [status] is 429 without being
    serialised is retried and then shown with the generic message.  A
    value classified by its [status] or [code] that has no JSON form is
    the one case left: the executor does not retry it, and
    [formatErrorMessage] throws on it as the executor does. *)
Theorem formatErrorMessage_versus_isRateLimit :
  (forall e, formatErrorMessage e = Some quotaMessage ->
             RateLimitClassified e /\ isRateLimit e = Some true)
  /\ (forall e, RateLimitClassified e ->
                formatErrorMessage e = Some quotaMessage
                \/ (formatErrorMessage e = Some genericMessage
                    /\ (getOpt e "status" = JNum 429
                        \/ getOpt e "code" = JNum 429))
                \/ (stringify e = None
                    /\ isRateLimit e = None
                    /\ formatErrorMessage e = None
                    /\ (getOpt e "status" = JNum 429
                        \/ getOpt e "code" = JNum 429)))
  /\ (forall e, isRateLimit e = Some true ->
                formatErrorMessage e = Some quotaMessage
                \/ (formatErrorMessage e = Some genericMessage
                    /\ (getOpt e "status" = JNum 429
                        \/ getOpt e "code" = JNum 429)))
  /\ (RateLimitClassified Sample.hiddenStatus
      /\ isRateLimit Sample.hiddenStatus = Some true
      /\ formatErrorMessage Sample.hiddenStatus = Some genericMessage).
Proof.
  assert (Hwords : forall e, RateLimitClassified e ->
            formatErrorMessage e = Some quotaMessage
            \/ (formatErrorMessage e = Some genericMessage
                /\ (getOpt e "status" = JNum 429
                    \/ getOpt e "code" = JNum 429))
            \/ (stringify e = None
                /\ isRateLimit e = None
                /\ formatErrorMessage e = None
                /\ (getOpt e "status" = JNum 429
                    \/ getOpt e "code" = JNum 429))).
  { intros e H. unfold formatErrorMessage, isRateLimit.
    destruct H as [(str & -> & H) | H].
    + left. destruct H as [-> | ->]; simpl; now rewrite ?orb_true_r.
    + destruct (stringify e) as [str|] eqn:Hs.
      * destruct (_ || _);
          [now left | right; left; split; [reflexivity | exact H]].
      * right; right. repeat split; auto. }
  split; [|split; [exact Hwords | split]].
  - intros e H. apply quota_message_classified in H.
    split; [now apply isRateLimit_classified | exact H].
  - intros e H.
    destruct (Hwords e (isRateLimit_classified e H))
      as [Hq | [Hg | (Hs & _)]]; [now left | now right |].
    apply isRateLimit_unserialisable in Hs. congruence.
  - split; [right; left; reflexivity | split; reflexivity].
Qed.

Section HandlerFacts.

Context {W : Type}.
Variable setTimeout : Z -> W -> W.
Variable generateContent : GenRequest -> W -> Result (option string) * W.
Variable parseBlueprint : string -> option DesignBlueprint.

Lemma recover_uncaught (back : WorkflowState) (err : JsValue)
    (st : AppState) (w : W) (tr : list (RetryEvent GenRequest)) :
  (exists msg, formatErrorMessage err = Some msg) ->
  uncaught (recover back err st w tr) = None.
Proof. intros [msg H]. unfold recover. now rewrite H. Qed.

Lemma handleAnalyze_uncaught (st : AppState) (w : W) :
  uncaught (handleAnalyze setTimeout generateContent parseBlueprint st w)
  = None.
Proof.
  unfold handleAnalyze.
  destruct (String.eqb (trim (inputText st)) ""); [reflexivity|].
  destruct (analyzeDocument _ _ _ _ _ _) as [[[b|err] w'] tr] eqn:E;
    [reflexivity|].
  apply recover_uncaught. eapply analyzeDocument_rejection. exact E.
Qed.

Lemma handleGenerateCard_uncaught (st : AppState) (i : Z) (w : W) :
  uncaught (handleGenerateCard setTimeout generateContent st i w) = None.
Proof.
  unfold handleGenerateCard.
  destruct (blueprint st) as [b|]; [|reflexivity].
  destruct (generateCardHTML _ _ _ _ _) as [[[html|err] w'] tr] eqn:E.
  - destruct (at_index (cardOutlines b) i); reflexivity.
  - apply recover_uncaught. eapply generateCardHTML_rejection. exact E.
Qed.

Lemma handleNext_uncaught (st : AppState) (w : W) :
  uncaught (handleNext setTimeout generateContent st w) = None.
Proof.
  unfold handleNext.
  destruct (blueprint st) as [b|]; [|reflexivity].
  destruct (currentCard st) as [card|]; [|reflexivity].
  destruct (_ <? _)%Z; [apply handleGenerateCard_uncaught | reflexivity].
Qed.

End HandlerFacts.

(** X8: no exception escapes a handler, whatever the external capability
    answers or rejects with and whatever the state is: the [catch]
    blocks of [handleAnalyze] and [handleGenerateCard] format only values
    that have a serialised form, because the retry executor rejects with
    nothing else. *)
Theorem handlers_never_throw
    {W : Type} (setTimeout : Z -> W -> W)
    (generateContent : GenRequest -> W -> Result (option string) * W)
    (parseBlueprint : string -> option DesignBlueprint)
    (st : AppState) (w : W) :
  uncaught (handleAnalyze setTimeout generateContent parseBlueprint st w)
  = None
  /\ (forall i,
        uncaught (handleGenerateCard setTimeout generateContent st i w)
        = None)
  /\ uncaught (handleNext setTimeout generateContent st w) = None
  /\ (forall c,
        uncaught (click setTimeout generateContent parseBlueprint c st w)
        = None).
Proof.
  split; [apply handleAnalyze_uncaught|].
  split; [intros i; apply handleGenerateCard_uncaught|].
  split; [apply handleNext_uncaught|].
  intros [| idx | | |]; simpl;
    auto using handleAnalyze_uncaught, handleGenerateCard_uncaught,
               handleNext_uncaught.
Qed.

(** X9: when the analysis gets an answer that is not a blueprint (its
    text is missing or [JSON.parse] throws), the request is not sent
    again: [handleAnalyze] sends it once, with the text as typed, and
    ends in [IDLE] with the generic message and the blueprint as it
    was. *)
Theorem handleAnalyze_unparsable_answer
    {W : Type} (setTimeout : Z -> W -> W)
    (generateContent : GenRequest -> W -> Result (option string) * W)
    (parseBlueprint : string -> option DesignBlueprint)
    (st : AppState) (w w' : W) (response : option string) :
  String.eqb (trim (inputText st)) "" = false ->
  generateContent (analysisRequest (inputText st) (selectedStyle st)) w
  = (Resolved response, w') ->
  match response with Some t => parseBlueprint t | None => None end = None ->
  let r := handleAnalyze setTimeout generateContent parseBlueprint st w in
  events r
  = [Attempt; Inner (analysisRequest (inputText st) (selectedStyle st))]
  /\ world r = w'
  /\ workflow (final r) = IDLE
  /\ error (final r) = Some genericMessage
  /\ blueprint (final r) = blueprint st.
Proof.
  intros Hne Hresp Hparse r. subst r. unfold handleAnalyze. rewrite Hne.
  unfold analyzeDocument.
  rewrite (withRetry_unclassified setTimeout _ 3 3000 w w'
             json_parse_failure
             [analysisRequest (inputText st) (selectedStyle st)]).
  - repeat split; reflexivity.
  - cbv beta zeta.
    fold (analysisRequest (inputText st) (selectedStyle st)).
    now rewrite Hresp, Hparse.
  - reflexivity.
Qed.

Lemma handleAnalyze_unparsable_answer_witness :
  let r := handleAnalyze Demo.noTimer
             (Demo.scripted [] (Resolved (Some "not a blueprint")))
             Demo.noParse Sample.typed 0%nat in
  events r = [Attempt; Inner (analysisRequest "  Hello world " "Auto")]
  /\ world r = 1%nat
  /\ workflow (final r) = IDLE
  /\ error (final r) = Some genericMessage
  /\ blueprint (final r) = None.
Proof.
  apply (handleAnalyze_unparsable_answer Demo.noTimer
           (Demo.scripted [] (Resolved (Some "not a blueprint")))
           Demo.noParse Sample.typed 0%nat 1%nat (Some "not a blueprint"));
    reflexivity.
Defined.

(** X10: when the answer to a render request carries no text, the
    request is not sent again: [handleGenerateCard] sends it once and
    ends in [BLUEPRINT_READY] with the generic message, the blueprint
    and the current card as they were. *)
Theorem handleGenerateCard_answer_without_text
    {W : Type} (setTimeout : Z -> W -> W)
    (generateContent : GenRequest -> W -> Result (option string) * W)
    (st : AppState) (b : DesignBlueprint) (i : Z) (card : CardOutline)
    (w w' : W) :
  blueprint st = Some b ->
  at_index (cardOutlines b) i = Some card ->
  generateContent (renderRequest b i card) w = (Resolved None, w') ->
  let r := handleGenerateCard setTimeout generateContent st i w in
  events r = [Attempt; Inner (renderRequest b i card)]
  /\ world r = w'
  /\ workflow (final r) = BLUEPRINT_READY
  /\ error (final r) = Some genericMessage
  /\ blueprint (final r) = Some b
  /\ currentCard (final r) = currentCard st.
Proof.
  intros Hb Hcard Hresp r. subst r. unfold handleGenerateCard. rewrite Hb.
  unfold generateCardHTML.
  rewrite (withRetry_unclassified setTimeout _ 3 3000 w w'
             includes_of_undefined [renderRequest b i card]).
  - repeat split; try reflexivity. simpl. exact Hb.
  - cbv beta zeta. rewrite Hcard. fold (renderRequest b i card).
    now rewrite Hresp.
  - reflexivity.
Qed.

Lemma handleGenerateCard_answer_without_text_witness :
  let r := handleGenerateCard Demo.noTimer
             (Demo.scripted [] (Resolved None)) Demo.shown 1 0%nat in
  events r
  = [Attempt; Inner (renderRequest Demo.twoCards 1 (Demo.outline "Details"))]
  /\ world r = 1%nat
  /\ workflow (final r) = BLUEPRINT_READY
  /\ error (final r) = Some genericMessage
  /\ blueprint (final r) = Some Demo.twoCards
  /\ currentCard (final r) = currentCard Demo.shown.
Proof.
  apply (handleGenerateCard_answer_without_text Demo.noTimer
           (Demo.scripted [] (Resolved None)) Demo.shown Demo.twoCards 1
           (Demo.outline "Details") 0%nat 1%nat);
    reflexivity.
Defined.

Section OutcomeFacts.

Context {W : Type}.
Variable setTimeout : Z -> W -> W.
Variable generateContent : GenRequest -> W -> Result (option string) * W.
Variable parseBlueprint : string -> option DesignBlueprint.

Lemma withRetry_resolved {F T : Type} (fn : @Async W F T)
    (retries delay : Z) (w w1 : W) (v : T) (tr : list F) :
  fn w = (Resolved v, w1, tr) ->
  withRetry setTimeout fn retries delay w =
    (Resolved v, w1, Attempt :: List.map Inner tr).
Proof. intros H. now rewrite withRetry_body, H. Qed.

(** An analysis against a capability that always answers with a quota
    error. *)
Lemma analyzeDocument_quota_exhausted (text preferredStyle : string) (w : W) :
  (forall req w0,
     exists e, fst (generateContent req w0) = Rejected e
               /\ formatErrorMessage e = Some quotaMessage) ->
  exists e w' tr,
    analyzeDocument setTimeout generateContent parseBlueprint
      text preferredStyle w = (Rejected e, w', tr)
    /\ formatErrorMessage e = Some quotaMessage
    /\ attempts tr = 4%nat
    /\ waits tr = [3000; 6000; 12000]%Z.
Proof.
  intros Hquota. unfold analyzeDocument.
  match goal with
  | |- context [withRetry setTimeout ?f 3 3000 w] => set (fn := f)
  end.
  assert (Hfn : forall w0,
             exists e, fst (fst (fn w0)) = Rejected e
                       /\ formatErrorMessage e = Some quotaMessage).
  { intros w0. unfold fn.
    destruct (Hquota (analysisRequest text preferredStyle) w0)
      as (e & He & Hmsg).
    fold (analysisRequest text preferredStyle).
    destruct (generateContent (analysisRequest text preferredStyle) w0)
      as [[response|e'] w1]; simpl in He; [discriminate|].
    injection He as ->. simpl. eauto. }
  destruct (withRetry_exhausts setTimeout fn 3 3 3000 w eq_refl)
    as (tr & Heq & Ha & Hw & _); [lia | |].
  - intros k _. destruct (Hfn (attemptWorld setTimeout fn 3000 w k))
      as (e & He & Hmsg).
    exists e. split; [exact He|].
    now apply quota_message_classified.
  - destruct (Hfn (attemptWorld setTimeout fn 3000 w 3)) as (e & He & Hmsg).
    rewrite He in Heq. eexists. eexists. exists tr.
    split; [exact Heq|]. repeat split; assumption.
Qed.

End OutcomeFacts.

(** X11: when the external capability answers every request with an
    error whose serialised form mentions 429 or the quota, an analysis
    makes four attempts, waits 3000, 6000 and 12000 between them, and
    ends in [IDLE] with the quota message stored and the blueprint as it
    was. *)
Theorem handleAnalyze_quota_exhausted
    {W : Type} (setTimeout : Z -> W -> W)
    (generateContent : GenRequest -> W -> Result (option string) * W)
    (parseBlueprint : string -> option DesignBlueprint)
    (st : AppState) (w : W) :
  String.eqb (trim (inputText st)) "" = false ->
  (forall req w0,
     exists e, fst (generateContent req w0) = Rejected e
               /\ formatErrorMessage e = Some quotaMessage) ->
  let r := handleAnalyze setTimeout generateContent parseBlueprint st w in
  attempts (events r) = 4%nat
  /\ waits (events r) = [3000; 6000; 12000]%Z
  /\ workflow (final r) = IDLE
  /\ error (final r) = Some quotaMessage
  /\ blueprint (final r) = blueprint st
  /\ currentCard (final r) = currentCard st.
Proof.
  intros Hne Hquota r. subst r.
  destruct (analyzeDocument_quota_exhausted setTimeout generateContent
              parseBlueprint (inputText st) (selectedStyle st) w Hquota)
    as (e & w' & tr & Heq & Hmsg & Ha & Hw).
  unfold handleAnalyze. rewrite Hne, Heq. unfold recover. rewrite Hmsg.
  simpl. repeat split; assumption.
Qed.

Lemma handleAnalyze_quota_exhausted_witness :
  let r := handleAnalyze Demo.noTimer
             (Demo.scripted [] (Rejected Demo.quotaError))
             Demo.noParse Sample.typed 0%nat in
  attempts (events r) = 4%nat
  /\ waits (events r) = [3000; 6000; 12000]%Z
  /\ workflow (final r) = IDLE
  /\ error (final r) = Some quotaMessage
  /\ blueprint (final r) = blueprint Sample.typed
  /\ currentCard (final r) = currentCard Sample.typed.
Proof.
  apply (handleAnalyze_quota_exhausted Demo.noTimer
           (Demo.scripted [] (Rejected Demo.quotaError))
           Demo.noParse Sample.typed 0%nat).
  - reflexivity.
  - intros req w0. exists Demo.quotaError. split.
    + unfold Demo.scripted. simpl. now destruct w0.
    + reflexivity.
Defined.

(** X12: when the capability answers the request for an outline with a
    text, [handleGenerateCard] sends that one request and ends in
    [CARD_READY] without a message, the blueprint kept; the current card
    carries the index asked for, the title of that outline and the
    markup extracted from the text, which contains no fence. *)
Theorem handleGenerateCard_success
    {W : Type} (setTimeout : Z -> W -> W)
    (generateContent : GenRequest -> W -> Result (option string) * W)
    (st : AppState) (b : DesignBlueprint) (i : Z) (card : CardOutline)
    (w w' : W) (text : string) :
  blueprint st = Some b ->
  at_index (cardOutlines b) i = Some card ->
  generateContent (renderRequest b i card) w = (Resolved (Some text), w') ->
  exists markup,
    extractHtml text = Some markup
    /\ includes markup "```" = false
    /\ let r := handleGenerateCard setTimeout generateContent st i w in
       events r = [Attempt; Inner (renderRequest b i card)]
       /\ world r = w'
       /\ workflow (final r) = CARD_READY
       /\ error (final r) = None
       /\ blueprint (final r) = Some b
       /\ currentCard (final r)
          = Some {| index := i; html := markup; cardTitle := title card |}.
Proof.
  intros Hb Hcard Hresp.
  destruct (stripFence_fence_free text) as (h & Hh & Hfree).
  assert (Hx : extractHtml text = Some (trim h))
    by (unfold extractHtml; now rewrite Hh).
  exists (trim h). split; [exact Hx|].
  split; [apply includes_false; now apply trim_without|].
  unfold handleGenerateCard. rewrite Hb. unfold generateCardHTML.
  rewrite (withRetry_resolved setTimeout _ 3 3000 w w' (trim h)
             [renderRequest b i card]).
  - rewrite Hcard. simpl. repeat split; try reflexivity. exact Hb.
  - cbv beta zeta. rewrite Hcard. fold (renderRequest b i card).
    now rewrite Hresp, Hx.
Qed.

Lemma handleGenerateCard_success_witness :
  exists markup,
    extractHtml "```html <p>2</p> ```" = Some markup
    /\ includes markup "```" = false
    /\ let r := handleGenerateCard Demo.noTimer
                  (Demo.scripted [] (Resolved (Some "```html <p>2</p> ```")))
                  Sample.ready 1 0%nat in
       events r
       = [Attempt;
          Inner (renderRequest Demo.twoCards 1 (Demo.outline "Details"))]
       /\ world r = 1%nat
       /\ workflow (final r) = CARD_READY
       /\ error (final r) = None
       /\ blueprint (final r) = Some Demo.twoCards
       /\ currentCard (final r)
          = Some {| index := 1; html := markup;
                    cardTitle := title (Demo.outline "Details") |}.
Proof.
  apply (handleGenerateCard_success Demo.noTimer
           (Demo.scripted [] (Resolved (Some "```html <p>2</p> ```")))
           Sample.ready Demo.twoCards 1 (Demo.outline "Details")
           0%nat 1%nat "```html <p>2</p> ```");
    reflexivity.
Defined.

(** X13: after [handleReset], whatever the state was, the component is
    in its initial state but for the download flag, which is left as it
    was; none of the controls wired to the handlers can be clicked until
    a text is typed, and an analysis invoked all the same returns at
    once. *)
Theorem handleReset_back_to_start
    {W : Type} (setTimeout : Z -> W -> W)
    (generateContent : GenRequest -> W -> Result (option string) * W)
    (parseBlueprint : string -> option DesignBlueprint)
    (st : AppState) (w : W) :
  handleReset st = setIsDownloading (isDownloading st) initialState
  /\ (forall c, enabled (handleReset st) c = false)
  /\ handleAnalyze setTimeout generateContent parseBlueprint
       (handleReset st) w
     = {| final := handleReset st; world := w; events := [];
          uncaught := None |}.
Proof.
  split; [reflexivity|]. split; [|reflexivity].
  intros [| idx | | |]; reflexivity.
Qed.

(** ** The states the component rests in *)

Section StableFacts.

Context {W : Type}.
Variable setTimeout : Z -> W -> W.
Variable generateContent : GenRequest -> W -> Result (option string) * W.
Variable parseBlueprint : string -> option DesignBlueprint.

Lemma Stable_initial : Stable initialState.
Proof. split; [reflexivity | split; reflexivity]. Qed.

(** In a stable state with a blueprint, the current card, if any, is one
    of its cards. *)
Lemma Stable_card (st : AppState) (b : DesignBlueprint) :
  Stable st -> blueprint st = Some b ->
  workflow st <> IDLE
  /\ forall card, currentCard st = Some card -> cardBelongs b card.
Proof.
  intros [_ H] Hb. destruct (workflow st); try contradiction.
  - destruct H as [H _]. congruence.
  - destruct H as (b' & Hb' & H). split; [discriminate|].
    assert (b' = b) by congruence. subst. exact H.
  - destruct H as (b' & card' & Hb' & Hc & H & _). split; [discriminate|].
    assert (b' = b) by congruence. subst.
    intros card Hcard. assert (card = card') by congruence. now subst.
Qed.

Lemma handleGenerateCard_stable (st : AppState) (i : Z) (w : W) :
  Stable st ->
  Stable (final (handleGenerateCard setTimeout generateContent st i w)).
Proof.
  intros Hst. unfold handleGenerateCard.
  destruct (blueprint st) as [b|] eqn:Hb; [|exact Hst].
  destruct (Stable_card st b Hst Hb) as [_ Hcard].
  destruct Hst as [Hdl _].
  assert (Hback : forall msg,
             Stable (setWorkflow BLUEPRINT_READY
                       (setError (Some msg)
                          (setError None (setWorkflow GENERATING_CARD st))))).
  { intros msg. split; [exact Hdl|]. simpl. exists b. split; assumption. }
  destruct (generateCardHTML setTimeout generateContent b i w)
    as [[[markup|err] w'] tr] eqn:E.
  - destruct (at_index (cardOutlines b) i) as [outline|] eqn:Ho.
    + split; [exact Hdl|]. simpl.
      exists b. eexists. repeat split; try eassumption; try reflexivity.
      exists outline. split; [exact Ho | reflexivity].
    + apply Hback.
  - destruct (generateCardHTML_rejection _ _ _ _ _ _ _ _ E) as [msg Hmsg].
    unfold recover. rewrite Hmsg. apply Hback.
Qed.

Lemma handleNext_stable (st : AppState) (w : W) :
  Stable st ->
  Stable (final (handleNext setTimeout generateContent st w)).
Proof.
  intros Hst. unfold handleNext.
  destruct (blueprint st) as [b|]; [|exact Hst].
  destruct (currentCard st) as [card|]; [|exact Hst].
  destruct (_ <? _)%Z; [now apply handleGenerateCard_stable | exact Hst].
Qed.

Lemma handleAnalyze_stable (st : AppState) (w : W) :
  Stable st -> workflow st = IDLE ->
  Stable (final (handleAnalyze setTimeout generateContent parseBlueprint
                   st w)).
Proof.
  intros Hst Hidle. unfold handleAnalyze.
  destruct (String.eqb (trim (inputText st)) ""); [exact Hst|].
  destruct Hst as [Hdl H]. rewrite Hidle in H. destruct H as [Hb Hc].
  destruct (analyzeDocument _ _ _ _ _ _) as [[[b|err] w'] tr] eqn:E.
  - split; [exact Hdl|]. simpl. exists b. split; [reflexivity|].
    intros card Hcard. congruence.
  - destruct (analyzeDocument_rejection _ _ _ _ _ _ _ _ _ E) as [msg Hmsg].
    unfold recover. rewrite Hmsg.
    split; [exact Hdl|]. simpl. split; assumption.
Qed.

Lemma handleReset_stable (st : AppState) :
  isDownloading st = false -> Stable (handleReset st).
Proof. intros H. split; [exact H | split; reflexivity]. Qed.

Lemma showsForm_stable (st : AppState) :
  Stable st -> showsForm st = true -> workflow st = IDLE.
Proof.
  intros [_ H]. unfold showsForm.
  destruct (workflow st); try contradiction; try reflexivity;
    discriminate.
Qed.

Lemma perform_stable (a : UserAction) (st : AppState) (w : W) :
  Stable st -> possible st a = true ->
  Stable (fst (perform setTimeout generateContent parseBlueprint a st w)).
Proof.
  intros Hst Hp. destruct a as [c | text | id]; simpl.
  - destruct c as [| idx | | |]; simpl.
    + apply handleAnalyze_stable; [exact Hst|].
      apply (showsForm_stable st Hst).
      simpl in Hp. now apply andb_true_iff in Hp as [Hp _].
    + now apply handleGenerateCard_stable.
    + now apply handleGenerateCard_stable.
    + now apply handleNext_stable.
    + apply handleReset_stable. exact (proj1 Hst).
  - exact Hst.
  - exact Hst.
Qed.

Lemma session_stable (l : list UserAction) :
  forall (st0 st : AppState) (w0 w : W),
    Stable st0 ->
    session setTimeout generateContent parseBlueprint l st0 w0
    = Some (st, w) ->
    Stable st.
Proof.
  induction l as [|a l IH]; intros st0 st w0 w Hst; simpl.
  - intros [= <- _]. exact Hst.
  - destruct (possible st0 a) eqn:Hp; [|discriminate].
    pose proof (perform_stable a st0 w0 Hst Hp) as Hnext.
    destruct (perform setTimeout generateContent parseBlueprint a st0 w0)
      as [st1 w1].
    apply (IH st1 st w1 w Hnext).
Qed.

End StableFacts.

(** X14: provided every analysis answer that [JSON.parse] accepts has
    the shape of a blueprint (what [parseBlueprint] stands for; the
    source does not check it, and an answer such as [null] or [{}] is
    outside this statement), whatever the user does, through the
    controls that can be clicked, and whatever else the external
    capability does (it rejects, answers without a text, with a text
    that does not parse, with any markup), the component
    comes to rest only in [IDLE], [BLUEPRINT_READY] or [CARD_READY],
    never in [ANALYZING], [GENERATING_CARD] or [ERROR]; in [IDLE] there
    is neither a blueprint nor a card; otherwise there is a blueprint,
    and the current card, which [CARD_READY] always has, carries the
    index and the title of one of its outlines; and [CARD_READY] has no
    error message.  (Handlers run one after the other, each to
    completion.) *)
Theorem session_rests_in_stable_state
    {W : Type} (setTimeout : Z -> W -> W)
    (generateContent : GenRequest -> W -> Result (option string) * W)
    (parseBlueprint : string -> option DesignBlueprint)
    (l : list UserAction) (st : AppState) (w0 w : W) :
  session setTimeout generateContent parseBlueprint l initialState w0
  = Some (st, w) ->
  Stable st.
Proof.
  apply session_stable. apply Stable_initial.
Qed.

Lemma session_rests_in_stable_state_witness :
  exists st w,
    session Demo.noTimer Sample.cardAnswer Demo.parseTwo
      Sample.tour initialState 0%nat = Some (st, w)
    /\ workflow st = CARD_READY
    /\ option_map index (currentCard st) = Some 1%Z
    /\ Stable st.
Proof.
  eexists. eexists. split; [reflexivity|].
  split; [reflexivity|]. split; [reflexivity|].
  apply (session_rests_in_stable_state Demo.noTimer Sample.cardAnswer
           Demo.parseTwo Sample.tour _ 0%nat 3%nat).
  reflexivity.
Defined.

(** X15: when the current card is a card of the blueprint and the tool
    bar is shown, the next button is enabled exactly when the card is
    not the last one; clicking it then runs the generation for the next
    index, which has an outline, and [handleNext] does nothing when the
    button is disabled. *)
Theorem next_button_agrees_with_handleNext
    {W : Type} (setTimeout : Z -> W -> W)
    (generateContent : GenRequest -> W -> Result (option string) * W)
    (st : AppState) (b : DesignBlueprint) (card : GeneratedCard) (w : W) :
  blueprint st = Some b ->
  currentCard st = Some card ->
  cardBelongs b card ->
  showsPanel st = true ->
  (enabled st NextButton = true <->
   (index card < Z.of_nat (List.length (cardOutlines b)) - 1)%Z)
  /\ (enabled st NextButton = true ->
      handleNext setTimeout generateContent st w
      = handleGenerateCard setTimeout generateContent st (index card + 1) w
      /\ exists outline,
           at_index (cardOutlines b) (index card + 1) = Some outline)
  /\ (enabled st NextButton = false ->
      handleNext setTimeout generateContent st w
      = {| final := st; world := w; events := []; uncaught := None |}).
Proof.
  intros Hb Hc (outline & Ho & _) Hpanel.
  assert (Hrange : (0 <= index card
                    < Z.of_nat (List.length (cardOutlines b)))%Z).
  { unfold at_index in Ho. destruct (index card <? 0)%Z eqn:E;
      [discriminate|]. apply Z.ltb_ge in E.
    assert (Hn : nth_error (cardOutlines b) (Z.to_nat (index card)) <> None)
      by congruence.
    apply nth_error_Some in Hn. lia. }
  assert (Hen : enabled st NextButton
                = negb (index card
                        =? Z.of_nat (List.length (cardOutlines b)) - 1)%Z).
  { unfold enabled, lastIndex. now rewrite Hpanel, Hc, Hb. }
  unfold handleNext. rewrite Hb, Hc, Hen. split; [|split].
  - rewrite negb_true_iff, Z.eqb_neq. lia.
  - rewrite negb_true_iff, Z.eqb_neq. intros Hne.
    replace (index card <? Z.of_nat (List.length (cardOutlines b)) - 1)%Z
      with true by (symmetry; apply Z.ltb_lt; lia).
    split; [reflexivity|]. apply at_index_in_range. lia.
  - rewrite negb_false_iff, Z.eqb_eq. intros ->.
    now rewrite Z.ltb_irrefl.
Qed.

Lemma next_button_agrees_with_handleNext_witness :
  (enabled Sample.onCover NextButton = true <->
   (0 < Z.of_nat (List.length (cardOutlines Demo.twoCards)) - 1)%Z)
  /\ (enabled Sample.onCover NextButton = true ->
      handleNext Demo.noTimer Sample.cardAnswer Sample.onCover 0%nat
      = handleGenerateCard Demo.noTimer Sample.cardAnswer Sample.onCover
          (0 + 1) 0%nat
      /\ exists outline,
           at_index (cardOutlines Demo.twoCards) (0 + 1) = Some outline)
  /\ (enabled Sample.onCover NextButton = false ->
      handleNext Demo.noTimer Sample.cardAnswer Sample.onCover 0%nat
      = {| final := Sample.onCover; world := 0%nat; events := [];
           uncaught := None |}).
Proof.
  apply (next_button_agrees_with_handleNext Demo.noTimer Sample.cardAnswer
           Sample.onCover Demo.twoCards Sample.coverCard 0%nat).
  - reflexivity.
  - reflexivity.
  - exists (Demo.outline "Cover"). split; reflexivity.
  - reflexivity.
Defined.

(* ===================================================================== *)
(** * Further properties of the export pipeline                            *)
(* ===================================================================== *)

Lemma downloading_cleared (st : AppState) :
  setIsDownloading false (setIsDownloading true st)
  = setIsDownloading false st.
Proof. reflexivity. Qed.

(** X16: an export that starts (there is a frame and a current card)
    always ends with the download flag cleared and the rest of the state
    untouched, and it does exactly one of these: trigger one download
    named after the card, show the security alert, show the generic
    alert, or show nothing because the test of the [catch] block threw.
    Without a frame or without a current card nothing happens. *)
Theorem downloadAsImage_outcome
    (toPng : Node -> (Node -> bool) -> Result string)
    (iframe : option (option Document)) (st : AppState) :
  let r := downloadAsImage toPng iframe st in
  (iframe = None \/ currentCard st = None -> r = (st, [], None))
  /\ (forall iframeDoc card,
        iframe = Some iframeDoc -> currentCard st = Some card ->
        fst (fst r) = setIsDownloading false st
        /\ ((exists href,
               snd (fst r) = [Download (downloadName (cardTitle card)) href]
               /\ snd r = None)
            \/ (snd (fst r) = [Alert corsAlert] /\ snd r = None)
            \/ (snd (fst r) = [Alert exportAlert] /\ snd r = None)
            \/ (snd (fst r) = [] /\ exists e, snd r = Some e))).
Proof.
  intros r. subst r. unfold downloadAsImage. split.
  - intros [-> | ->]; [reflexivity|]. now destruct iframe.
  - intros iframeDoc card -> ->.
    assert (Hcatch : forall err,
               let r := match isSecurityError err with
                        | Reads true =>
                            (setIsDownloading false
                               (setIsDownloading true st),
                             [Alert corsAlert], @None JsValue)
                        | Reads false =>
                            (setIsDownloading false
                               (setIsDownloading true st),
                             [Alert exportAlert], None)
                        | Throws e =>
                            (setIsDownloading false
                               (setIsDownloading true st), [], Some e)
                        end in
               fst (fst r) = setIsDownloading false st
               /\ ((exists href,
                      snd (fst r)
                      = [Download (downloadName (cardTitle card)) href]
                      /\ snd r = None)
                   \/ (snd (fst r) = [Alert corsAlert] /\ snd r = None)
                   \/ (snd (fst r) = [Alert exportAlert] /\ snd r = None)
                   \/ (snd (fst r) = [] /\ exists e, snd r = Some e))).
    { intros err. destruct (isSecurityError err) as [[|]|e]; simpl;
        (split; [reflexivity|]); eauto 8. }
    destruct iframeDoc as [doc|]; [|apply Hcatch].
    destruct (match cardContainer doc with
              | Some n => Some n
              | None => docBody doc
              end) as [container|]; [|apply Hcatch].
    destruct (toPng container filter) as [dataUrl|e]; [|apply Hcatch].
    simpl. split; [reflexivity|]. left. eauto.
Qed.

Lemma downloadAsImage_outcome_witness :
  let r := downloadAsImage Sample.tainted (Some (Some Demo.page))
             Demo.shown in
  fst (fst r) = setIsDownloading false Demo.shown
  /\ ((exists href,
         snd (fst r) = [Download (downloadName "Q&A: what/why?") href]
         /\ snd r = None)
      \/ (snd (fst r) = [Alert corsAlert] /\ snd r = None)
      \/ (snd (fst r) = [Alert exportAlert] /\ snd r = None)
      \/ (snd (fst r) = [] /\ exists e, snd r = Some e)).
Proof.
  apply (proj2 (downloadAsImage_outcome Sample.tainted
                  (Some (Some Demo.page)) Demo.shown)
           (Some Demo.page)
           {| index := 0; html := "<p>card</p>";
              cardTitle := "Q&A: what/why?" |});
    reflexivity.
Defined.

(** X17: when the document of the frame cannot be read, or it has
    neither a card container nor a body, the export shows the generic
    alert and triggers no download, whatever the rasterizer would do;
    and a document without a card container is exported through its
    body. *)
Theorem downloadAsImage_without_container
    (toPng : Node -> (Node -> bool) -> Result string)
    (st : AppState) (card : GeneratedCard) :
  currentCard st = Some card ->
  downloadAsImage toPng (Some None) st
  = (setIsDownloading false st, [Alert exportAlert], None)
  /\ (forall doc,
        cardContainer doc = None -> docBody doc = None ->
        downloadAsImage toPng (Some (Some doc)) st
        = (setIsDownloading false st, [Alert exportAlert], None))
  /\ (forall doc,
        cardContainer doc = None ->
        downloadAsImage toPng (Some (Some doc)) st
        = downloadAsImage toPng
            (Some (Some {| cardContainer := docBody doc;
                           docBody := docBody doc |})) st).
Proof.
  intros Hc. unfold downloadAsImage. rewrite Hc. split; [reflexivity|].
  split.
  - intros doc -> ->. reflexivity.
  - intros doc ->. simpl. now destruct (docBody doc).
Qed.

Lemma downloadAsImage_without_container_witness :
  downloadAsImage Demo.png (Some None) Demo.shown
  = (setIsDownloading false Demo.shown, [Alert exportAlert], None)
  /\ (forall doc,
        cardContainer doc = None -> docBody doc = None ->
        downloadAsImage Demo.png (Some (Some doc)) Demo.shown
        = (setIsDownloading false Demo.shown, [Alert exportAlert], None))
  /\ (forall doc,
        cardContainer doc = None ->
        downloadAsImage Demo.png (Some (Some doc)) Demo.shown
        = downloadAsImage Demo.png
            (Some (Some {| cardContainer := docBody doc;
                           docBody := docBody doc |})) Demo.shown).
Proof.
  apply (downloadAsImage_without_container Demo.png Demo.shown
           {| index := 0; html := "<p>card</p>";
              cardTitle := "Q&A: what/why?" |}).
  reflexivity.
Defined.

Lemma isSecurityError_named (err : JsValue) :
  getOpt err "name" = JStr "SecurityError" ->
  isSecurityError err = Reads true.
Proof.
  intros H. destruct err; try discriminate H;
    unfold isSecurityError; now rewrite H.
Qed.

(** X18: when the rasterizer rejects, no download is triggered and the
    download flag is cleared.  An error named [SecurityError] gets the
    security alert; a rejection with [undefined] or [null] gets no alert
    at all, because reading [err.name] in the [catch] block throws, and
    that [TypeError] escapes the handler. *)
Theorem downloadAsImage_rasterizer_rejects
    (toPng : Node -> (Node -> bool) -> Result string)
    (st : AppState) (card : GeneratedCard) (doc : Document)
    (container : Node) (err : JsValue) :
  currentCard st = Some card ->
  match cardContainer doc with Some n => Some n | None => docBody doc end
  = Some container ->
  toPng container filter = Rejected err ->
  let r := downloadAsImage toPng (Some (Some doc)) st in
  fst (fst r) = setIsDownloading false st
  /\ (forall name href, ~ In (Download name href) (snd (fst r)))
  /\ (getOpt err "name" = JStr "SecurityError" ->
      snd (fst r) = [Alert corsAlert] /\ snd r = None)
  /\ (err = JUndefined \/ err = JNull ->
      snd (fst r) = [] /\ exists e, snd r = Some e).
Proof.
  intros Hc Hcont Hrej r. subst r. unfold downloadAsImage.
  rewrite Hc, Hcont, Hrej.
  split; [destruct (isSecurityError err) as [[|]|]; reflexivity|].
  split; [|split].
  - intros name href.
    destruct (isSecurityError err) as [[|]|]; simpl; intuition discriminate.
  - intros H. now rewrite (isSecurityError_named err H).
  - intros [-> | ->]; simpl; eauto.
Qed.

Lemma downloadAsImage_rasterizer_rejects_witness :
  let r := downloadAsImage Sample.tainted (Some (Some Demo.page))
             Demo.shown in
  fst (fst r) = setIsDownloading false Demo.shown
  /\ (forall name href, ~ In (Download name href) (snd (fst r)))
  /\ (getOpt Sample.securityError "name" = JStr "SecurityError" ->
      snd (fst r) = [Alert corsAlert] /\ snd r = None)
  /\ (Sample.securityError = JUndefined \/ Sample.securityError = JNull ->
      snd (fst r) = [] /\ exists e, snd r = Some e).
Proof.
  apply (downloadAsImage_rasterizer_rejects Sample.tainted Demo.shown
           {| index := 0; html := "<p>card</p>";
              cardTitle := "Q&A: what/why?" |}
           Demo.page {| tagName := Some "DIV"; sheet := None |}
           Sample.securityError);
    reflexivity.
Defined.

Lemma underscore_safe : unsafeChar "_"%char = false.
Proof. reflexivity. Qed.

Lemma sanitize_fixed (t : string) :
  (forall c, In c (list_ascii_of_string t) -> unsafeChar c = false) ->
  sanitize t = t.
Proof.
  unfold sanitize. induction t as [|c t IH]; intros H; [reflexivity|].
  cbn [JsString.map]. rewrite (H c (or_introl eq_refl)). f_equal.
  apply IH. intros d Hd. apply H. right. exact Hd.
Qed.

(** X19: replacing the unsafe characters of a title changes nothing in a
    title that has none, and doing it twice is the same as doing it
    once: the replacement character is not an unsafe one. *)
Theorem sanitize_idempotent (t : string) :
  sanitize (sanitize t) = sanitize t
  /\ ((forall c, In c (list_ascii_of_string t) -> unsafeChar c = false) ->
      sanitize t = t /\ downloadName t = ("知识卡-" ++ t ++ ".png")%string).
Proof.
  split.
  - apply sanitize_fixed. apply sanitize_safe.
  - intros H. unfold downloadName. now rewrite (sanitize_fixed t H).
Qed.

Lemma sanitize_idempotent_witness :
  sanitize (sanitize "a/b") = sanitize "a/b"
  /\ sanitize "Cover" = "Cover"
  /\ downloadName "Cover" = ("知识卡-" ++ "Cover" ++ ".png")%string.
Proof.
  split.
  - apply (proj1 (sanitize_idempotent "a/b")).
  - apply (proj2 (sanitize_idempotent "Cover")).
    intros c Hc. simpl in Hc.
    repeat (destruct Hc as [<- | Hc]; [reflexivity|]). contradiction.
Defined.

(* ===================================================================== *)
(** * What the service resolves with                                       *)
(* ===================================================================== *)

Section ResolvedFacts.

Context {W : Type}.
Variable setTimeout : Z -> W -> W.
Variable generateContent : GenRequest -> W -> Result (option string) * W.
Variable parseBlueprint : string -> option DesignBlueprint.

(** The executor resolves only with what one of the calls resolved
    with: the value and the world are those of that call, and the call
    is the last thing of the run. *)
Lemma withRetry_resolved_from {F T : Type} (fn : @Async W F T) (n : nat) :
  forall (retries delay : Z) (w w' : W) (v : T)
         (tr : list (RetryEvent F)),
    Z.to_nat retries = n ->
    withRetry setTimeout fn retries delay w = (Resolved v, w', tr) ->
    exists w0 tr0 pre,
      fn w0 = (Resolved v, w', tr0)
      /\ tr = pre ++ Attempt :: List.map Inner tr0.
Proof.
  induction n as [|n IH]; intros retries delay w w' v tr Hn;
    rewrite withRetry_body;
    destruct (fn w) as [[[v0|error] w1] tr0] eqn:Hfn;
    try (intros [= <- <- <-]; exists w, tr0, []; now rewrite Hfn);
    (destruct (isRateLimit error) as [rl|]; [|discriminate]).
  - replace (0 <? retries)%Z with false by (symmetry; apply Z.ltb_ge; lia).
    discriminate.
  - destruct ((0 <? retries)%Z && rl) eqn:Hgo; [|discriminate].
    apply andb_true_iff in Hgo as [Hpos _]. apply Z.ltb_lt in Hpos.
    destruct (withRetry setTimeout fn (retries - 1) (delay * 2)
                (setTimeout delay w1)) as [[r w2] tr2] eqn:Hrec.
    rewrite after_eq. intros [= -> -> <-].
    destruct (IH (retries - 1)%Z _ _ _ _ _ ltac:(lia) Hrec)
      as (w0 & tr1 & pre & Hcall & ->).
    exists w0, tr1,
      ((Attempt :: List.map Inner tr0 ++ [Wait delay]) ++ pre).
    split; [exact Hcall|]. simpl. rewrite <- !app_assoc. reflexivity.
Qed.

(** A blueprint the analysis resolves with is the parse of the text the
    capability answered the last request of the run with. *)
Lemma analyzeDocument_resolved (text preferredStyle : string) (w w' : W)
    (b : DesignBlueprint) (tr : list (RetryEvent GenRequest)) :
  analyzeDocument setTimeout generateContent parseBlueprint
    text preferredStyle w = (Resolved b, w', tr) ->
  exists answer w0 pre,
    generateContent (analysisRequest text preferredStyle) w0
    = (Resolved (Some answer), w')
    /\ parseBlueprint answer = Some b
    /\ tr = pre ++ [Attempt; Inner (analysisRequest text preferredStyle)].
Proof.
  unfold analyzeDocument. intros H.
  apply (withRetry_resolved_from _ 3) in H; [|reflexivity].
  destruct H as (w0 & tr0 & pre & H & ->). cbv beta zeta in H.
  fold (analysisRequest text preferredStyle) in H.
  destruct (generateContent (analysisRequest text preferredStyle) w0)
    as [[[answer|]|e] w1] eqn:Hcall; try discriminate.
  destruct (parseBlueprint answer) as [b'|] eqn:Hp; [|discriminate].
  injection H as <- <- <-. exists answer, w0, pre. auto.
Qed.

(** A markup the renderer resolves with is extracted from the text the
    capability answered the last request of the run with, a request
    written for the outline at the index. *)
Lemma generateCardHTML_resolved (b : DesignBlueprint) (i : Z) (w w' : W)
    (markup : string) (tr : list (RetryEvent GenRequest)) :
  generateCardHTML setTimeout generateContent b i w
  = (Resolved markup, w', tr) ->
  exists card answer w0 pre,
    at_index (cardOutlines b) i = Some card
    /\ generateContent (renderRequest b i card) w0
       = (Resolved (Some answer), w')
    /\ extractHtml answer = Some markup
    /\ tr = pre ++ [Attempt; Inner (renderRequest b i card)].
Proof.
  unfold generateCardHTML. intros H.
  apply (withRetry_resolved_from _ 3) in H; [|reflexivity].
  destruct H as (w0 & tr0 & pre & H & ->). cbv beta zeta in H.
  destruct (at_index (cardOutlines b) i) as [card|]; [|discriminate].
  fold (renderRequest b i card) in H.
  destruct (generateContent (renderRequest b i card) w0)
    as [[[text|]|e] w1] eqn:Hcall; try discriminate.
  destruct (extractHtml text) as [h|] eqn:Hx; [|discriminate].
  injection H as <- <- <-. exists card, text, w0, pre. auto.
Qed.

Lemma extractHtml_fence_free (text markup : string) :
  extractHtml text = Some markup -> includes markup "```" = false.
Proof.
  intros H. destruct (stripFence_fence_free text) as (h & Hh & Hfree).
  unfold extractHtml in H. rewrite Hh in H. injection H as <-.
  apply includes_false. now apply trim_without.
Qed.

End ResolvedFacts.

(** X20: whatever the capability does and however many attempts it
    takes, a blueprint [analyzeDocument] resolves with is the parse of
    the text the capability answered the analysis request with, and a
    markup [generateCardHTML] resolves with is extracted from the text
    the capability answered the request for the outline at the index
    with: the index has an outline and the markup contains no fence.  In
    both cases that request is the last thing of the run and the world
    the service ends in is the one the capability left. *)
Theorem service_resolves_with_answers
    {W : Type} (setTimeout : Z -> W -> W)
    (generateContent : GenRequest -> W -> Result (option string) * W)
    (parseBlueprint : string -> option DesignBlueprint) (w w' : W)
    (tr : list (RetryEvent GenRequest)) :
  (forall text preferredStyle blueprint,
     analyzeDocument setTimeout generateContent parseBlueprint
       text preferredStyle w = (Resolved blueprint, w', tr) ->
     exists answer w0 pre,
       generateContent (analysisRequest text preferredStyle) w0
       = (Resolved (Some answer), w')
       /\ parseBlueprint answer = Some blueprint
       /\ tr = pre ++ [Attempt; Inner (analysisRequest text preferredStyle)])
  /\ (forall b i markup,
        generateCardHTML setTimeout generateContent b i w
        = (Resolved markup, w', tr) ->
        includes markup "```" = false
        /\ exists card answer w0 pre,
             at_index (cardOutlines b) i = Some card
             /\ generateContent (renderRequest b i card) w0
                = (Resolved (Some answer), w')
             /\ extractHtml answer = Some markup
             /\ tr = pre ++ [Attempt; Inner (renderRequest b i card)]).
Proof.
  split.
  - intros text preferredStyle blueprint H.
    exact (analyzeDocument_resolved setTimeout generateContent
             parseBlueprint text preferredStyle w w' blueprint tr H).
  - intros b i markup H.
    destruct (generateCardHTML_resolved setTimeout generateContent
                b i w w' markup tr H)
      as (card & answer & w0 & pre & Hc & Hcall & Hx & Htr).
    split; [exact (extractHtml_fence_free answer markup Hx)|].
    exists card, answer, w0, pre. auto.
Qed.

Lemma service_resolves_with_answers_witness :
  (exists answer w0 pre,
     Sample.cardAnswer (analysisRequest "Hello" "Auto") w0
     = (Resolved (Some answer), 1%nat)
     /\ Demo.parseTwo answer = Some Demo.twoCards
     /\ [Attempt; Inner (analysisRequest "Hello" "Auto")]
        = pre ++ [Attempt; Inner (analysisRequest "Hello" "Auto")])
  /\ (includes "<p>card</p>" "```" = false
      /\ exists card answer w0 pre,
           at_index (cardOutlines Demo.twoCards) 0 = Some card
           /\ Sample.cardAnswer (renderRequest Demo.twoCards 0 card) w0
              = (Resolved (Some answer), 1%nat)
           /\ extractHtml answer = Some "<p>card</p>"
           /\ [Attempt;
               Inner (renderRequest Demo.twoCards 0 (Demo.outline "Cover"))]
              = pre ++ [Attempt; Inner (renderRequest Demo.twoCards 0 card)]).
Proof.
  split.
  - apply (proj1 (service_resolves_with_answers Demo.noTimer
                    Sample.cardAnswer Demo.parseTwo 0%nat 1%nat
                    [Attempt; Inner (analysisRequest "Hello" "Auto")])
             "Hello" "Auto" Demo.twoCards).
    reflexivity.
  - apply (proj2 (service_resolves_with_answers Demo.noTimer
                    Sample.cardAnswer Demo.parseTwo 0%nat 1%nat
                    [Attempt;
                     Inner (renderRequest Demo.twoCards 0
                              (Demo.outline "Cover"))])
             Demo.twoCards 0%Z "<p>card</p>").
    reflexivity.
Defined.

(** X21: a card generated for an outline and then exported is saved
    under the name made from the title of that outline: the fixed
    prefix, the title with its unsafe characters replaced, [.png]. *)
Theorem export_after_generation
    {W : Type} (setTimeout : Z -> W -> W)
    (generateContent : GenRequest -> W -> Result (option string) * W)
    (toPng : Node -> (Node -> bool) -> Result string)
    (st : AppState) (b : DesignBlueprint) (i : Z) (card : CardOutline)
    (w w' : W) (text : string) (doc : Document) (container : Node)
    (dataUrl : string) :
  blueprint st = Some b ->
  at_index (cardOutlines b) i = Some card ->
  generateContent (renderRequest b i card) w = (Resolved (Some text), w') ->
  match cardContainer doc with Some n => Some n | None => docBody doc end
  = Some container ->
  toPng container filter = Resolved dataUrl ->
  let shown := final (handleGenerateCard setTimeout generateContent st i w) in
  downloadAsImage toPng (Some (Some doc)) shown
  = (setIsDownloading false shown,
     [Download ("知识卡-" ++ sanitize (title card) ++ ".png")%string dataUrl],
     None).
Proof.
  intros Hb Hcard Hresp Hcont Hpng shown.
  destruct (stripFence_fence_free text) as (h & Hh & _).
  assert (Hx : extractHtml text = Some (trim h))
    by (unfold extractHtml; now rewrite Hh).
  assert (Hshown : currentCard shown
                   = Some {| index := i; html := trim h;
                             cardTitle := title card |}).
  { unfold shown, handleGenerateCard. rewrite Hb. unfold generateCardHTML.
    rewrite (withRetry_resolved setTimeout _ 3 3000 w w' (trim h)
               [renderRequest b i card]).
    - now rewrite Hcard.
    - cbv beta zeta. rewrite Hcard. fold (renderRequest b i card).
      now rewrite Hresp, Hx. }
  unfold downloadAsImage. rewrite Hshown, Hcont, Hpng. reflexivity.
Qed.

Lemma export_after_generation_witness :
  let shown := final (handleGenerateCard Demo.noTimer Sample.cardAnswer
                        Sample.ready 1 0%nat) in
  downloadAsImage Demo.png (Some (Some Demo.page)) shown
  = (setIsDownloading false shown,
     [Download ("知识卡-" ++ sanitize (title (Demo.outline "Details"))
                  ++ ".png")%string
        "data:image/png;base64,iVBORw0KGgo="],
     None).
Proof.
  apply (export_after_generation Demo.noTimer Sample.cardAnswer Demo.png
           Sample.ready Demo.twoCards 1 (Demo.outline "Details")
           0%nat 1%nat "```html<p>card</p>```" Demo.page
           {| tagName := Some "DIV"; sheet := None |}
           "data:image/png;base64,iVBORw0KGgo=");
    reflexivity.
Defined.
